(** * Scheduling request interpreter and slot finder: a shallow embedding

    The development follows the JavaScript sources of the extension:

    - [services/ai-processor.js]   : [localParse], [aiEnhancedParse],
                                     [convertTimezoneAbbreviation];
    - [utils/timezone-handler.js]  : [parseTimezoneFromText],
                                     [parseRelativeTime], [suggestMeetingTimes],
                                     [calculateTimeScore];
    - [services/calendar-service.js] : [findAvailableSlots];
    - the background service worker : [validateMeetingData].

    Conventions of the embedding.

    - JavaScript values are the inductive [jsval]; objects are finite maps
      from property names to values, so that equality of the Rocq terms is
      deep equality of the objects.
    - Texts are [string]s of characters with codes below 256 (Latin-1);
      regular expressions are interpreted by a small backtracking matcher
      with the priorities of the JavaScript one (leftmost start, ordered
      alternatives, greedy star).
    - Numbers are exact rationals or integers; all the numbers met in the
      statements are small enough to be exact doubles.
    - A [Date] is its number of milliseconds on the local civil time line,
      for a local zone with a fixed offset (no daylight-saving jump inside
      the window considered).
    - What the sources obtain from the outside (the chrono-node parser, the
      host time zone, the network and [JSON.parse], the zone offsets of
      moment-timezone, moment's month arithmetic) is a parameter. *)

From Stdlib Require Import ZArith QArith Lqa Lia List Ascii String Sorted Permutation.
From stdpp Require Import base gmap strings list pretty sorting.

Set Warnings "-register-all".

Open Scope Z_scope.

(* ================================================================== *)
(** * JavaScript values *)
(* ================================================================== *)

Module JS.

Inductive jsval : Type :=
  | VUndefined
  | VNull
  | VBool (b : bool)
  | VNum (q : Q)
  | VStr (s : string)
  | VArr (l : list jsval)
  | VObj (o : gmap string jsval).

(** The two ways a step of the sources can end. *)
Inductive outcome (A : Type) : Type :=
  | Ret (a : A)
  | Throw (msg : string).
Arguments Ret {A} a.
Arguments Throw {A} msg.

Definition bind {A B} (m : outcome A) (f : A -> outcome B) : outcome B :=
  match m with
  | Ret a => f a
  | Throw e => Throw e
  end.

(** [try { m } catch (error) { return h }] *)
Definition try_catch {A} (m : outcome A) (h : A) : A :=
  match m with
  | Ret a => a
  | Throw _ => h
  end.

(** ToBoolean *)
Definition truthy (v : jsval) : bool :=
  match v with
  | VUndefined | VNull => false
  | VBool b => b
  | VNum q => negb (Qeq_bool q 0)
  | VStr s => negb (String.eqb s "")
  | VArr _ | VObj _ => true
  end.

(** [a || b] on values *)
Definition or_else (a b : jsval) : jsval := if truthy a then a else b.

(** [v.k] for a property name [k] that no prototype defines (all the names
    read by the sources are such): a TypeError on [null] and [undefined],
    the own property of an object, [undefined] elsewhere. *)
Definition getProp (v : jsval) (k : string) : outcome jsval :=
  match v with
  | VUndefined | VNull => Throw "TypeError"
  | VObj o => Ret (default VUndefined (o !! k))
  | _ => Ret VUndefined
  end.

(** [v?.k] *)
Definition getPropOpt (v : jsval) (k : string) : jsval :=
  match v with
  | VObj o => default VUndefined (o !! k)
  | _ => VUndefined
  end.

(** [v[i]] for an index [i] *)
Definition getIndex (v : jsval) (i : nat) : outcome jsval :=
  match v with
  | VUndefined | VNull => Throw "TypeError"
  | VArr l => Ret (default VUndefined (l !! i))
  | VStr s => Ret (match String.get i s with
                   | Some c => VStr (String c EmptyString)
                   | None => VUndefined
                   end)
  | VObj o => Ret (default VUndefined (o !! pretty i))
  | _ => Ret VUndefined
  end.

Fixpoint indexed (i : nat) (l : list jsval) : list (string * jsval) :=
  match l with
  | [] => []
  | v :: l' => (pretty i, v) :: indexed (S i) l'
  end.

Fixpoint chars (s : string) : list jsval :=
  match s with
  | EmptyString => []
  | String c s' => VStr (String c EmptyString) :: chars s'
  end.

(** The own enumerable properties copied by a spread [...v]. *)
Definition ownProps (v : jsval) : gmap string jsval :=
  match v with
  | VObj o => o
  | VArr l => list_to_map (indexed 0 l)
  | VStr s => list_to_map (indexed 0 (chars s))
  | _ => ∅
  end.

(** [{...a, ...b}]: the properties of [b] override those of [a]. *)
Definition spread2 (a b : jsval) : gmap string jsval := ownProps b ∪ ownProps a.

End JS.
Import JS.

(* ================================================================== *)
(** * Regular expressions *)
(* ================================================================== *)

Module Regex.

Inductive re : Type :=
  | Eps
  | Chr (p : ascii -> bool)
  | Seq (r1 r2 : re)
  | Alt (r1 r2 : re)
  | Star (r : re)
  | Bound
  | Group (n : nat) (r : re).

Definition code (c : ascii) : nat := nat_of_ascii c.

Definition between (lo hi : nat) (c : ascii) : bool :=
  (lo <=? code c)%nat && (code c <=? hi)%nat.

Definition isDigit : ascii -> bool := between 48 57.
Definition isUpper : ascii -> bool := between 65 90.
Definition isLower : ascii -> bool := between 97 122.
Definition isWord (c : ascii) : bool :=
  isUpper c || isLower c || isDigit c || (code c =? 95)%nat.
Definition isSpace (c : ascii) : bool :=
  between 9 13 c || (code c =? 32)%nat || (code c =? 160)%nat.

(** The capital letters beyond ASCII: all of 192-222 but the sign 215. *)
Definition isUpperLatin (c : ascii) : bool :=
  between 192 222 c && negb (code c =? 215)%nat.

Definition toLower (c : ascii) : ascii :=
  if isUpper c || isUpperLatin c then ascii_of_nat (code c + 32)%nat else c.

Definition chr_eq (c : ascii) : ascii -> bool := fun x => (code x =? code c)%nat.
Definition chr_ci (c : ascii) : ascii -> bool :=
  fun x => (code (toLower x) =? code (toLower c))%nat.

(** A literal, exact or under the [i] flag. *)
Fixpoint lit (s : string) : re :=
  match s with
  | EmptyString => Eps
  | String c s' => Seq (Chr (chr_eq c)) (lit s')
  end.

Fixpoint lit_ci (s : string) : re :=
  match s with
  | EmptyString => Eps
  | String c s' => Seq (Chr (chr_ci c)) (lit_ci s')
  end.

Definition Plus (r : re) : re := Seq r (Star r).
Definition Opt (r : re) : re := Alt r Eps.

Fixpoint alts (l : list re) : re :=
  match l with
  | [] => Chr (fun _ => false)
  | [r] => r
  | r :: l' => Alt r (alts l')
  end.

(** The matcher state: the character before the cursor, the text after
    it, and the captures made so far. *)
Record st : Type := St {
  prev : option ascii;
  rest : list ascii;
  caps : list (nat * list ascii)
}.

Definition wordAt (o : option ascii) : bool :=
  match o with
  | Some c => isWord c
  | None => false
  end.

Definition advance (c : ascii) (t : list ascii) (s : st) : st :=
  St (Some c) t (caps s).

Definition capture (n : nat) (s0 s1 : st) : st :=
  St (prev s1) (rest s1)
     ((n, take (length (rest s0) - length (rest s1))%nat (rest s0)) :: caps s1).

(** Backtracking matcher in continuation-passing style; an iteration of a
    star must consume at least one character. *)
Fixpoint run {A : Type} (r : re) (s : st) (k : st -> option A) : option A :=
  match r with
  | Eps => k s
  | Chr p =>
      match rest s with
      | c :: t => if p c then k (advance c t s) else None
      | [] => None
      end
  | Seq r1 r2 => run r1 s (fun s' => run r2 s' k)
  | Alt r1 r2 =>
      match run r1 s k with
      | Some a => Some a
      | None => run r2 s k
      end
  | Star r' =>
      (fix iter (fuel : nat) (s : st) : option A :=
         match fuel with
         | O => k s
         | S f =>
             match run r' s (fun s' =>
                     if (length (rest s') <? length (rest s))%nat
                     then iter f s' else None) with
             | Some a => Some a
             | None => k s
             end
         end) (length (rest s)) s
  | Bound =>
      if xorb (wordAt (prev s)) (wordAt (head (rest s))) then k s else None
  | Group n r' => run r' s (fun s' => k (capture n s s'))
  end.

(** Try the start positions from left to right. *)
Fixpoint search (r : re) (p : option ascii) (t : list ascii)
  : option (list (nat * list ascii)) :=
  match run r (St p t []) (fun s => Some (caps s)) with
  | Some cs => Some cs
  | None =>
      match t with
      | [] => None
      | c :: t' => search r (Some c) t'
      end
  end.

(** [text.match(r)] for a regular expression without the [g] flag. *)
Definition exec (r : re) (text : string) : option (list (nat * list ascii)) :=
  search r None (list_ascii_of_string text).

(** [r.test(text)] *)
Definition test (r : re) (text : string) : bool :=
  match exec r text with
  | Some _ => true
  | None => false
  end.

(** [match[n]] *)
Fixpoint group (n : nat) (cs : list (nat * list ascii)) : string :=
  match cs with
  | [] => EmptyString
  | (m, w) :: cs' => if (m =? n)%nat then string_of_list_ascii w else group n cs'
  end.

(** [text.toLowerCase()] *)
Fixpoint toLowerCase (s : string) : string :=
  match s with
  | EmptyString => EmptyString
  | String c s' => String (toLower c) (toLowerCase s')
  end.

(** [text.includes(w)] *)
Definition includes (text w : string) : bool := test (lit w) text.

(** The loop of a star, as [run] has it, under a name. *)
Definition iterStar {A : Type} (r : re) (k : st -> option A) : nat -> st -> option A :=
  fix iter (fuel : nat) (s : st) : option A :=
    match fuel with
    | O => k s
    | S f =>
        match run r s (fun s' =>
                if (length (rest s') <? length (rest s))%nat
                then iter f s' else None) with
        | Some a => Some a
        | None => k s
        end
    end.

End Regex.
Import Regex.

#[global] Instance outcome_ret : MRet outcome := @Ret.
#[global] Instance outcome_bind : MBind outcome := fun A B f m => JS.bind m f.

(* ================================================================== *)
(** * services/ai-processor.js *)
(* ================================================================== *)

Module AIProcessor.

(** What [localParse] reads from the first result of [chrono.parse]:
    [date.toISOString().split('T')[0]], [isCertain('hour')],
    [date.getHours()] and [date.getMinutes()]. *)
Record chronoStart : Type := ChronoStart {
  isoDate : string;
  isCertainHour : bool;
  getHours : Z;
  getMinutes : Z
}.

(** [String(n).padStart(2, '0')] *)
Definition padStart2 (n : Z) : string :=
  let s := pretty n in
  if (String.length s <? 2)%nat then ("0" +:+ s)%string else s.

Fixpoint digitsValue (acc : Z) (l : list ascii) : Z :=
  match l with
  | [] => acc
  | c :: l' => digitsValue (10 * acc + (Z.of_nat (code c) - 48)) l'
  end.

Fixpoint spanDigits (l : list ascii) : list ascii * list ascii :=
  match l with
  | c :: l' =>
      if isDigit c then let '(d, r) := spanDigits l' in (c :: d, r)
      else ([], l)
  | [] => ([], [])
  end.

(** [parseFloat] on the texts captured by the duration patterns: decimal
    digits, possibly followed by a point and more digits. *)
Definition parseFloat (s : string) : Q :=
  let '(ip, r) := spanDigits (list_ascii_of_string s) in
  match r with
  | "."%char :: f =>
      let '(fp, _) := spanDigits f in
      (inject_Z (digitsValue 0 ip)
       + inject_Z (digitsValue 0 fp) / inject_Z (10 ^ Z.of_nat (length fp)))%Q
  | _ => inject_Z (digitsValue 0 ip)
  end.

Definition unitRe (l : list string) : re := alts (map lit_ci l).

(** The duration patterns, each with its source text (the loop inspects
    [pattern.toString()]). *)
Definition durationPatterns : list (string * re) :=
  [ ("/(\d+)\s*(?:minute|min|minutes)/i",
     Seq (Group 1 (Plus (Chr isDigit)))
         (Seq (Star (Chr isSpace)) (unitRe ["minute"; "min"; "minutes"])));
    ("/(\d+)\s*(?:hour|hr|hours)/i",
     Seq (Group 1 (Plus (Chr isDigit)))
         (Seq (Star (Chr isSpace)) (unitRe ["hour"; "hr"; "hours"])));
    ("/(\d+\.5)\s*(?:hour|hr|hours)/i",
     Seq (Group 1 (Seq (Plus (Chr isDigit)) (lit ".5")))
         (Seq (Star (Chr isSpace)) (unitRe ["hour"; "hr"; "hours"]))) ].

(** The [for (const pattern of durationPatterns)] loop: the first pattern
    that matches decides, hour patterns multiply by 60. *)
Fixpoint extractDuration (ps : list (string * re)) (command : string) : option Q :=
  match ps with
  | [] => None
  | (src, pattern) :: ps' =>
      match exec pattern command with
      | Some m =>
          let duration := parseFloat (group 1 m) in
          Some (if includes src "hour" then (duration * 60)%Q else duration)
      | None => extractDuration ps' command
      end
  end.

Definition platformKeywords : list (string * list string) :=
  [ ("google-meet", ["google meet"; "gmeet"; "meet"]);
    ("zoom", ["zoom"]);
    ("teams", ["teams"; "microsoft teams"; "ms teams"]) ].

Fixpoint extractPlatform (ps : list (string * list string)) (lowerCommand : string)
  : option string :=
  match ps with
  | [] => None
  | (platform, keywords) :: ps' =>
      if existsb (fun keyword => includes lowerCommand keyword) keywords
      then Some platform
      else extractPlatform ps' lowerCommand
  end.

(** [/\b([A-Z]{3,4})\b/] *)
Definition timezoneToken : re :=
  Seq Bound
    (Seq (Group 1 (Seq (Chr isUpper) (Seq (Chr isUpper)
                    (Seq (Chr isUpper) (Opt (Chr isUpper))))))
         Bound).

Definition timezoneMap : list (string * string) :=
  [ ("EST", "America/New_York");
    ("EDT", "America/New_York");
    ("CST", "America/Chicago");
    ("CDT", "America/Chicago");
    ("MST", "America/Denver");
    ("MDT", "America/Denver");
    ("PST", "America/Los_Angeles");
    ("PDT", "America/Los_Angeles");
    ("GMT", "Europe/London");
    ("BST", "Europe/London");
    ("CET", "Europe/Paris");
    ("CEST", "Europe/Paris");
    ("IST", "Asia/Kolkata");
    ("JST", "Asia/Tokyo");
    ("AEST", "Australia/Sydney");
    ("AEDT", "Australia/Sydney") ].

Fixpoint assoc (k : string) (l : list (string * string)) : option string :=
  match l with
  | [] => None
  | (k', v) :: l' => if String.eqb k' k then Some v else assoc k l'
  end.

(** [timezoneMap[abbr]] as a value *)
Definition lookupTimezone (abbr : string) : jsval :=
  match assoc abbr timezoneMap with
  | Some tz => VStr tz
  | None => VUndefined
  end.

Definition emptyParse : gmap string jsval :=
  <["platform" := VNull]> (<["duration" := VNull]> (<["timezone" := VNull]>
  (<["time" := VNull]> (<["date" := VNull]> (<["email" := VNull]>
  (<["participantName" := VNull]> ∅)))))).

Definition setIf (c : bool) (k : string) (v : jsval) (o : gmap string jsval)
  : gmap string jsval :=
  if c then <[k := v]> o else o.

Definition setSome (k : string) (v : option jsval) (o : gmap string jsval)
  : gmap string jsval :=
  match v with
  | Some x => <[k := x]> o
  | None => o
  end.

Section WithHost.

(** [chrono.parse(command)], reduced to the start component of each
    result. *)
Variable chronoParse : string -> list chronoStart.

(** [Intl.DateTimeFormat().resolvedOptions().timeZone] *)
Variable systemTimeZone : string.

Definition convertTimezoneAbbreviation (abbr : string) : jsval :=
  or_else (lookupTimezone abbr) (VStr systemTimeZone).

Definition localParse (command : string) (context : jsval) : jsval :=
  let parsed := emptyParse in
  let info := getPropOpt context "participantInfo" in
  let name := getPropOpt info "name" in
  let parsed := setIf (truthy name) "participantName" name parsed in
  let email := getPropOpt info "email" in
  let parsed := setIf (truthy email) "email" email parsed in
  let parsed :=
    match chronoParse command with
    | firstDate :: _ =>
        let parsed := <["date" := VStr (isoDate firstDate)]> parsed in
        setIf (isCertainHour firstDate) "time"
          (VStr (padStart2 (getHours firstDate) +:+ ":"
                 +:+ padStart2 (getMinutes firstDate))%string) parsed
    | [] => parsed
    end in
  let parsed :=
    setSome "duration" (VNum <$> extractDuration durationPatterns command) parsed in
  let lowerCommand := toLowerCase command in
  let parsed :=
    setSome "platform" (VStr <$> extractPlatform platformKeywords lowerCommand) parsed in
  let timezoneMatch := exec timezoneToken command in
  let parsed :=
    setSome "timezone"
      ((fun m => convertTimezoneAbbreviation (group 1 m)) <$> timezoneMatch) parsed in
  VObj parsed.

(** The response of the language-model endpoint as the code reads it:
    [response.ok], [response.status] and the result of
    [response.json()]. *)
Record response : Type := Response {
  ok : bool;
  status : Z;
  json : outcome jsval
}.

(** [buildPrompt] followed by [fetch]: what the request built from the
    three arguments comes back with, or the error thrown on the way. *)
Variable remote : string -> jsval -> jsval -> outcome response.

(** [JSON.parse] *)
Variable JSON_parse : jsval -> outcome jsval.

(** [a.k || b.k], the second operand read only when needed *)
Definition propOr (a b : jsval) (k : string) : outcome jsval :=
  x ← getProp a k;
  if truthy x then Ret x else getProp b k.

(** [data.choices[0].message.content] *)
Definition messageContent (data : jsval) : outcome jsval :=
  choices ← getProp data "choices";
  choice ← getIndex choices 0;
  message ← getProp choice "message";
  getProp message "content".

(** The object literal returned on success:
    [{...localParse, ...aiParsed, participantName: ..., email: ...}] *)
Definition mergeParses (localParse aiParsed : jsval) : outcome jsval :=
  let merged := spread2 localParse aiParsed in
  participantName ← propOr aiParsed localParse "participantName";
  email ← propOr aiParsed localParse "email";
  Ret (VObj (<["email" := email]>
               (<["participantName" := participantName]> merged))).

Definition aiEnhancedParse (command : string) (context localParse : jsval) : jsval :=
  try_catch
    (response ← remote command context localParse;
     if negb (ok response) then Ret localParse else
     data ← json response;
     content ← messageContent data;
     aiParsed ← JSON_parse content;
     mergeParses localParse aiParsed)
    localParse.

(** [parseSchedulingRequest] without its outer [try]: nothing in the
    model of its body throws. *)
Definition parseSchedulingRequest (apiKey : jsval) (command : string)
           (context : jsval) : jsval :=
  let local := localParse command context in
  if truthy apiKey then aiEnhancedParse command context local else local.

End WithHost.

End AIProcessor.

(* ================================================================== *)
(** * The background service worker *)
(* ================================================================== *)

Module BackgroundService.

Record validation : Type := Validation {
  isValid : bool;
  missing : list string
}.

Definition push (c : bool) (x : string) (l : list string) : list string :=
  if c then l ++ [x] else l.

Definition validateMeetingData (parsedData context : jsval) : outcome validation :=
  let missing := [] in
  email ← getProp parsedData "email";
  let missing :=
    push (negb (truthy email)
          && negb (truthy (getPropOpt (getPropOpt context "participantInfo") "email")))
         "email" missing in
  date ← getProp parsedData "date";
  let missing := push (negb (truthy date)) "date" missing in
  time ← getProp parsedData "time";
  let missing := push (negb (truthy time)) "time" missing in
  Ret (Validation (length missing =? 0)%nat missing).

Section WithServices.

(** [await this.storage.getSettings()] *)
Variable settings : jsval.

(** [parseDateAndTime(dateStr, timeStr, timezone)]: the object it builds
    with the date parsing and the formats of the host, or the error it
    throws (a time that is no text, a date that is no date). *)
Variable parseDateAndTime : jsval -> jsval -> jsval -> outcome jsval.

(** [this.aiProcessor.generateMeetingMessage(details)], which falls back
    to its template on every failure. *)
Variable generateMeetingMessage : jsval -> jsval.

Definition generateMeetingDetails (parsedData context : jsval) : outcome jsval :=
  let info := getPropOpt context "participantInfo" in
  parsedName ← getProp parsedData "participantName";
  let participantName :=
    or_else (or_else parsedName (getPropOpt info "name")) (VStr "Unknown") in
  parsedEmail ← getProp parsedData "email";
  let participantEmail :=
    or_else (or_else parsedEmail (getPropOpt info "email")) (VStr "") in
  dateStr ← getProp parsedData "date";
  timeStr ← getProp parsedData "time";
  parsedTimezone ← getProp parsedData "timezone";
  defaultTimezone ← (if truthy parsedTimezone then Ret parsedTimezone
                     else getProp settings "defaultTimezone");
  dateTime ← parseDateAndTime dateStr timeStr defaultTimezone;
  parsedDuration ← getProp parsedData "duration";
  defaultDuration ← (if truthy parsedDuration then Ret parsedDuration
                     else getProp settings "defaultDuration");
  let duration := or_else defaultDuration (VNum 30) in
  parsedPlatform ← getProp parsedData "platform";
  defaultPlatform ← (if truthy parsedPlatform then Ret parsedPlatform
                     else getProp settings "defaultPlatform");
  let platform := or_else defaultPlatform (VStr "google-meet") in
  dateFormatted ← getProp dateTime "dateFormatted";
  timeFormatted ← getProp dateTime "timeFormatted";
  timezone ← getProp dateTime "timezone";
  let messageDraft :=
    generateMeetingMessage
      (VObj (<["context" := getPropOpt context "messages"]>
            (<["platform" := platform]> (<["duration" := duration]>
            (<["timezone" := timezone]> (<["time" := timeFormatted]>
            (<["date" := dateFormatted]>
            (<["participantName" := participantName]> ∅)))))))) in
  date ← getProp dateTime "date";
  time ← getProp dateTime "time";
  Ret (VObj (<["linkedInUrl" := getPropOpt info "linkedInUrl"]>
            (<["messageDraft" := messageDraft]> (<["platform" := platform]>
            (<["duration" := duration]> (<["timezone" := timezone]>
            (<["time" := time]> (<["date" := date]>
            (<["email" := participantEmail]>
            (<["participantName" := participantName]> ∅)))))))))).

End WithServices.

End BackgroundService.

(* ================================================================== *)
(** * utils/timezone-handler.js *)
(* ================================================================== *)

Module TimezoneHandler.

(** [/\b(a|b|c)\b/i] *)
Definition wordOf (l : list string) : re :=
  Seq Bound (Seq (Group 1 (alts (map lit_ci l))) Bound).

(** [/\bname\b/i] *)
Definition place (name : string) : re :=
  Seq Bound (Seq (lit_ci name) Bound).

(** [/\bname|ab\b/i]: the alternation binds weaker than the anchors. *)
Definition placeOr (name ab : string) : re :=
  Alt (Seq Bound (lit_ci name)) (Seq (lit_ci ab) Bound).

Definition timezonePatterns : list (re * string) :=
  [ (wordOf ["EST"; "EDT"; "Eastern"], "America/New_York");
    (wordOf ["CST"; "CDT"; "Central"], "America/Chicago");
    (wordOf ["MST"; "MDT"; "Mountain"], "America/Denver");
    (wordOf ["PST"; "PDT"; "Pacific"], "America/Los_Angeles");
    (wordOf ["GMT"; "UTC"], "Europe/London");
    (wordOf ["BST"; "London"], "Europe/London");
    (wordOf ["CET"; "Paris"; "Berlin"], "Europe/Paris");
    (wordOf ["IST"; "India"], "Asia/Kolkata");
    (wordOf ["JST"; "Japan"; "Tokyo"], "Asia/Tokyo");
    (wordOf ["AEST"; "Sydney"; "Australia"], "Australia/Sydney");
    (place "New York", "America/New_York");
    (place "Chicago", "America/Chicago");
    (placeOr "Los Angeles" "LA", "America/Los_Angeles");
    (placeOr "San Francisco" "SF", "America/Los_Angeles");
    (place "Seattle", "America/Los_Angeles");
    (place "Denver", "America/Denver");
    (place "London", "Europe/London");
    (place "Paris", "Europe/Paris");
    (place "Berlin", "Europe/Berlin");
    (place "Dubai", "Asia/Dubai");
    (place "Singapore", "Asia/Singapore");
    (place "Hong Kong", "Asia/Hong_Kong");
    (place "Tokyo", "Asia/Tokyo");
    (place "Sydney", "Australia/Sydney") ].

(** The [for (const { pattern, timezone } of ...)] loop; [None] is the
    final [return null]. *)
Fixpoint firstMatch (ps : list (re * string)) (text : string) : option string :=
  match ps with
  | [] => None
  | (pattern, timezone) :: ps' =>
      if test pattern text then Some timezone else firstMatch ps' text
  end.

Definition parseTimezoneFromText (text : string) : option string :=
  firstMatch timezonePatterns text.

(** ** Moments

    A moment is a local calendar day, counted from 1970-01-01, and the
    milliseconds elapsed in that day. *)
Record moment : Type := Moment {
  mday : Z;
  mtime : Z
}.

(** [m.day()]: 0 is Sunday, 6 is Saturday; 1970-01-01 was a Thursday. *)
Definition dayOfWeek (m : moment) : Z := (mday m + 4) mod 7.

Definition addDays (n : Z) (m : moment) : moment := Moment (mday m + n) (mtime m).

(** [m.day(n)]: the day of the week [n] of the week of [m], weeks running
    from Sunday. *)
Definition setDay (n : Z) (m : moment) : moment := addDays (n - dayOfWeek m) m.

(** [m.startOf('week')] *)
Definition startOfWeek (m : moment) : moment := Moment (mday m - dayOfWeek m) 0.

(** [a.isBefore(b, 'day')] *)
Definition isBeforeDay (a b : moment) : bool := mday a <? mday b.

Definition word (w : string) : re := Seq Bound (Seq (lit w) Bound).

Definition daysOfWeek : list string :=
  ["monday"; "tuesday"; "wednesday"; "thursday"; "friday"; "saturday"; "sunday"].

(** [new RegExp(`\\b(next|this)\\s+(${daysOfWeek.join('|')})\\b`, 'i')] *)
Definition dayPattern : re :=
  Seq Bound
    (Seq (Group 1 (alts [lit_ci "next"; lit_ci "this"]))
         (Seq (Plus (Chr isSpace))
              (Seq (Group 2 (alts (map lit_ci daysOfWeek))) Bound))).

(** [/\bin\s+(\d+)\s+(day|days|week|weeks|month|months)\b/i] *)
Definition inPattern : re :=
  Seq Bound
    (Seq (lit_ci "in")
         (Seq (Plus (Chr isSpace))
              (Seq (Group 1 (Plus (Chr isDigit)))
                   (Seq (Plus (Chr isSpace))
                        (Seq (Group 2 (alts (map lit_ci
                                ["day"; "days"; "week"; "weeks"; "month"; "months"])))
                             Bound))))).

(** [l.indexOf(x)] *)
Fixpoint indexOf (x : string) (l : list string) : Z :=
  match l with
  | [] => -1
  | y :: l' =>
      if String.eqb y x then 0
      else let i := indexOf x l' in if i <? 0 then -1 else i + 1
  end.

(** [parseInt] on a run of decimal digits *)
Definition parseInt (s : string) : Z :=
  AIProcessor.digitsValue 0 (fst (AIProcessor.spanDigits (list_ascii_of_string s))).

(** [s.replace(/s$/, '')] *)
Fixpoint dropFinalS (s : string) : string :=
  match s with
  | EmptyString => EmptyString
  | String c EmptyString => if (code c =? 115)%nat then EmptyString else s
  | String c s' => String c (dropFinalS s')
  end.

Section WithMoment.

(** [m.add(n, 'month')]: the month arithmetic of the moment library. *)
Variable addMonths : Z -> moment -> moment.

Definition add (amount : Z) (unit : string) (m : moment) : moment :=
  if String.eqb unit "day" then addDays amount m
  else if String.eqb unit "week" then addDays (7 * amount) m
  else addMonths amount m.

Definition parseRelativeTime (text : string) (referenceDate : moment)
  : option moment :=
  let lowerText := toLowerCase text in
  let now := referenceDate in
  if test (word "today") lowerText then Some now
  else if test (word "tomorrow") lowerText then Some (add 1 "day" now)
  else if test (word "yesterday") lowerText then Some (add (-1) "day" now)
  else if test (word "next week") lowerText
       then Some (startOfWeek (add 1 "week" now))
  else if test (word "this week") lowerText then Some (startOfWeek now)
  else
    match exec dayPattern lowerText with
    | Some dayMatch =>
        let modifier := toLowerCase (group 1 dayMatch) in
        let dayName := toLowerCase (group 2 dayMatch) in
        let targetDay := indexOf dayName daysOfWeek in
        let targetDate := setDay targetDay now in
        let targetDate :=
          if String.eqb modifier "next" || isBeforeDay targetDate now
          then add 1 "week" targetDate
          else targetDate in
        Some targetDate
    | None =>
        match exec inPattern lowerText with
        | Some inMatch =>
            let amount := parseInt (group 1 inMatch) in
            let unit := dropFinalS (group 2 inMatch) in
            Some (add amount unit now)
        | None => None
        end
    end.

End WithMoment.

(** ** Meeting-time suggestions *)

Definition calculateTimeScore (hour1 hour2 : Z) : Q :=
  let idealStart := 10 in
  let idealEnd := 16 in
  let score1 := if (idealStart <=? hour1) && (hour1 <=? idealEnd) then 1%Q else (1 # 2)%Q in
  let score2 := if (idealStart <=? hour2) && (hour2 <=? idealEnd) then 1%Q else (1 # 2)%Q in
  let earlyPenalty1 := if hour1 <? 9 then (- (1 # 2))%Q else 0%Q in
  let earlyPenalty2 := if hour2 <? 9 then (- (1 # 2))%Q else 0%Q in
  let latePenalty1 := if 17 <? hour1 then (- (1 # 2))%Q else 0%Q in
  let latePenalty2 := if 17 <? hour2 then (- (1 # 2))%Q else 0%Q in
  (score1 + score2 + earlyPenalty1 + earlyPenalty2 + latePenalty1 + latePenalty2)%Q.

(** A suggestion.  The two formatted times are kept as the minute of the
    day they print, [dateTime] as the instant in minutes, UTC. *)
Record suggestion : Type := Suggestion {
  timezone1Time : Z;
  timezone2Time : Z;
  dateTime : Z;
  score : Q
}.

(** [suggestions.sort((a, b) => b.score - a.score)]: the sort of an array
    is stable, so it is the stable insertion of each element in turn. *)
Definition compareFn (a b : suggestion) : Q := (score b - score a)%Q.

Fixpoint insertSorted (x : suggestion) (l : list suggestion) : list suggestion :=
  match l with
  | [] => [x]
  | y :: l' =>
      if Qle_bool (compareFn x y) 0 then x :: y :: l'
      else y :: insertSorted x l'
  end.

Definition sort (l : list suggestion) : list suggestion :=
  foldr insertSorted [] l.

Record options : Type := Options {
  date : Z;
  duration : Z;
  businessHoursStart : Z;
  businessHoursEnd : Z
}.

Section WithZones.

(** The UTC offset of a zone, in minutes, on the day considered (the
    zone data of moment-timezone; no transition on that day). *)
Variable utcOffset : string -> Z.

(** The zone of the host, in which [moment(date)] is read. *)
Variable hostZone : string.

(** Minute of the day of an instant in a zone; the hour of a moment. *)
Definition minuteOfDay (zone : string) (instant : Z) : Z :=
  (instant + utcOffset zone) mod 1440.
Definition hourIn (zone : string) (instant : Z) : Z :=
  minuteOfDay zone instant / 60.

(** [m.startOf('day')], then [.hour(h).minute(0)], of the moment at
    [instant] shown in [zone]; both as instants. *)
Definition startOfDay (zone : string) (instant : Z) : Z :=
  (instant + utcOffset zone) / 1440 * 1440 - utcOffset zone.
Definition atHour (zone : string) (hour : Z) (instant : Z) : Z :=
  (instant + utcOffset zone) / 1440 * 1440 + hour * 60 - utcOffset zone.

(** [time1] and [hour2] for one value of [hour]; [time2] is the
    instant [time1] shown in the second zone. *)
Definition time1At (timezone1 : string) (o : options) (hour : Z) : Z :=
  let startDate := startOfDay hostZone (date o) in
  atHour timezone1 hour startDate.
Definition hour2At (timezone1 timezone2 : string) (o : options) (hour : Z) : Z :=
  let time2 := time1At timezone1 o hour in
  hourIn timezone2 time2.

(** The body of the [for] loop for one value of [hour]. *)
Definition tryHour (timezone1 timezone2 : string) (o : options) (hour : Z)
  : list suggestion :=
  let time1 := time1At timezone1 o hour in
  let time2 := time1 in
  let hour2 := hour2At timezone1 timezone2 o hour in
  if (businessHoursStart o <=? hour2) && (hour2 <? businessHoursEnd o)
  then [ Suggestion (minuteOfDay timezone1 time1) (minuteOfDay timezone2 time2)
           time1 (calculateTimeScore hour hour2) ]
  else [].

(** [for (let hour = businessHoursStart; hour < businessHoursEnd; hour++)] *)
Definition candidates (timezone1 timezone2 : string) (o : options)
  : list suggestion :=
  concat (map (tryHour timezone1 timezone2 o)
              (seqZ (businessHoursStart o)
                    (businessHoursEnd o - businessHoursStart o))).

Definition suggestMeetingTimes (timezone1 timezone2 : string) (o : options)
  : list suggestion :=
  take 5 (sort (candidates timezone1 timezone2 o)).

End WithZones.

(** ** The difference between two zones *)

Record timeDifference : Type := TimeDifference {
  hours : Z;
  minutes : Z;
  totalMinutes : Z;
  formatted : string
}.

Section WithNow.

(** [moment.tz(now, zone).utcOffset()]: the offset of a zone, in minutes,
    at the time of the call. *)
Variable utcOffsetNow : string -> Z.

Definition getTimeDifference (timezone1 timezone2 : string) : timeDifference :=
  let tz1Offset := utcOffsetNow timezone1 in
  let tz2Offset := utcOffsetNow timezone2 in
  let diffMinutes := tz2Offset - tz1Offset in
  let hours := Z.abs diffMinutes / 60 in
  let minutes := Z.abs diffMinutes mod 60 in
  let sign : string := if 0 <=? diffMinutes then "+"%string else "-"%string in
  TimeDifference hours minutes diffMinutes
    (sign +:+ pretty hours +:+ ":" +:+ AIProcessor.padStart2 minutes)%string.

End WithNow.

End TimezoneHandler.

(* ================================================================== *)
(** * services/calendar-service.js *)
(* ================================================================== *)

Module CalendarService.

Definition msPerMinute : Z := 60000.
Definition msPerHour : Z := 3600000.
Definition msPerDay : Z := 86400000.

(** [d.getHours()] *)
Definition getHours (d : Z) : Z := (d / msPerHour) mod 24.

(** [d.setHours(h, 0, 0, 0)] *)
Definition setHours (h : Z) (d : Z) : Z := d / msPerDay * msPerDay + h * msPerHour.

(** [d.setDate(d.getDate() + 1)] *)
Definition nextDate (d : Z) : Z := d + msPerDay.

(** A busy interval, its two ends read by [new Date(...)]. *)
Record busy : Type := Busy {
  busyStart : Z;
  busyEnd : Z
}.

Record slot : Type := Slot {
  start : Z;
  end_ : Z
}.

Definition businessHoursStart : Z := 9.
Definition businessHoursEnd : Z := 17.

(** The callback of [busySlots.some(...)] *)
Definition conflicts (currentTime slotEnd : Z) (b : busy) : bool :=
  ((busyStart b <=? currentTime) && (currentTime <? busyEnd b))
  || ((busyStart b <? slotEnd) && (slotEnd <=? busyEnd b)).

Definition isAvailable (currentTime slotEnd : Z) (busySlots : list busy) : bool :=
  negb (existsb (conflicts currentTime slotEnd) busySlots).

(** The [while (currentTime < endDate)] loop, with a bound on the number
    of its iterations. *)
Fixpoint scan (fuel : nat) (endDate : Z) (busySlots : list busy) (duration : Z)
         (currentTime : Z) : list slot :=
  match fuel with
  | O => []
  | S fuel' =>
      if currentTime <? endDate then
        let slotEnd := currentTime + duration * msPerMinute in
        if businessHoursEnd <? getHours slotEnd then
          scan fuel' endDate busySlots duration
               (setHours businessHoursStart (nextDate currentTime))
        else
          (if isAvailable currentTime slotEnd busySlots
           then [Slot currentTime slotEnd] else [])
          ++ scan fuel' endDate busySlots duration (currentTime + 30 * msPerMinute)
      else []
  end.

(** Every iteration moves [currentTime] forward by half an hour at least,
    which bounds the iterations left before [endDate]. *)
Definition iterations (endDate currentTime : Z) : nat :=
  Z.to_nat ((endDate - currentTime) / (30 * msPerMinute) + 1).

Definition findAvailableSlots (startDate endDate : Z) (busySlots : list busy)
           (duration : Z) : list slot :=
  let currentTime := setHours businessHoursStart startDate in
  scan (iterations endDate currentTime) endDate busySlots duration currentTime.

(** The step of the scan. *)
Definition halfHour : Z := 30 * msPerMinute.

(** [d.setHours(23, 59, 59, 999)] *)
Definition endOfDate (d : Z) : Z :=
  d / msPerDay * msPerDay + 23 * msPerHour + 59 * msPerMinute + 59 * 1000 + 999.

Section WithCalendar.

(** [ensureAuthenticated], the free/busy request for the window and the
    reading of [data.calendars[calendarId].busy]: the busy intervals of the
    reply, or the error thrown on the way (no token, a non-success status,
    a reply of another shape). *)
Variable freeBusy : Z -> Z -> outcome (list busy).

Definition checkAvailability (date duration : Z) : list slot :=
  let startDate := setHours 0 date in
  let endDate := endOfDate date in
  try_catch
    (busySlots ← freeBusy startDate endDate;
     Ret (findAvailableSlots startDate endDate busySlots duration))
    [].

End WithCalendar.

End CalendarService.

(* ================================================================== *)
(** * The notions of the specification *)
(* ================================================================== *)

Module Spec.

Import AIProcessor.

Definition isString (v : jsval) : bool :=
  match v with VStr _ => true | _ => false end.
Definition isNumber (v : jsval) : bool :=
  match v with VNum _ => true | _ => false end.
Definition isArray (v : jsval) : bool :=
  match v with VArr _ => true | _ => false end.

Definition fieldIs (kind : jsval -> bool) (o : gmap string jsval) (k : string) : bool :=
  match o !! k with
  | Some v => kind v
  | None => true
  end.

(** The response schema of the language-model endpoint: a JSON object
    whose fields [participantName], [email], [date], [time], [timezone]
    and [platform] are texts, [duration] and [confidence] numbers and
    [inferredInfo] a list. *)
Definition conformsToSchema (v : jsval) : bool :=
  match v with
  | VObj o =>
      forallb (fieldIs isString o)
              ["participantName"; "email"; "date"; "time"; "timezone"; "platform"]
      && forallb (fieldIs isNumber o) ["duration"; "confidence"]
      && fieldIs isArray o "inferredInfo"
  | _ => false
  end.

(** The failures of the remote call that the code itself tells apart: an
    error thrown while the request is built or sent, a non-success status,
    a body that is not JSON, a body without [choices[0].message.content],
    a content that [JSON.parse] rejects, and the content [null]. *)
Inductive callFails (remote : string -> jsval -> jsval -> outcome response)
          (JSON_parse : jsval -> outcome jsval)
          (command : string) (context localParse : jsval) : Prop :=
  | fails_thrown e :
      remote command context localParse = Throw e ->
      callFails remote JSON_parse command context localParse
  | fails_status r :
      remote command context localParse = Ret r -> ok r = false ->
      callFails remote JSON_parse command context localParse
  | fails_body r e :
      remote command context localParse = Ret r -> json r = Throw e ->
      callFails remote JSON_parse command context localParse
  | fails_envelope r data e :
      remote command context localParse = Ret r -> json r = Ret data ->
      messageContent data = Throw e ->
      callFails remote JSON_parse command context localParse
  | fails_content r data content e :
      remote command context localParse = Ret r -> json r = Ret data ->
      messageContent data = Ret content -> JSON_parse content = Throw e ->
      callFails remote JSON_parse command context localParse
  | fails_null r data content :
      remote command context localParse = Ret r -> json r = Ret data ->
      messageContent data = Ret content -> JSON_parse content = Ret VNull ->
      callFails remote JSON_parse command context localParse.

(** The required-field policy of the validator, in the order of the
    missing list. *)
Definition requiredFields : list string := ["email"; "date"; "time"].

Definition satisfied (parsed : gmap string jsval) (context : jsval) (field : string)
  : bool :=
  if String.eqb field "email"
  then truthy (default VUndefined (parsed !! "email"))
       || truthy (getPropOpt (getPropOpt context "participantInfo") "email")
  else truthy (default VUndefined (parsed !! field)).


(** The first of the values [vs] that is not empty, and [fallback] when
    all of them are. *)
Fixpoint firstTruthy (vs : list jsval) (fallback : jsval) : jsval :=
  match vs with
  | [] => fallback
  | v :: vs' => if truthy v then v else firstTruthy vs' fallback
  end.

(** The days of the week as the calendar numbers them: Sunday is 0 and
    Saturday is 6. *)
Definition calendarWeek : list string :=
  ["sunday"; "monday"; "tuesday"; "wednesday"; "thursday"; "friday"; "saturday"].

Definition weekdayNumber (name : string) : Z :=
  TimezoneHandler.indexOf name calendarWeek.

(** The occurrence of a named weekday in the week of the reference. *)
Definition weekOccurrence (name : string) (now : TimezoneHandler.moment)
  : TimezoneHandler.moment :=
  TimezoneHandler.addDays (weekdayNumber name - TimezoneHandler.dayOfWeek now) now.

(** "this <weekday>": the occurrence in the week of the reference when it
    is not behind the reference day, the one of the following week when it
    is.  "next <weekday>": one full week beyond. *)
Definition thisWeekday (name : string) (now : TimezoneHandler.moment)
  : TimezoneHandler.moment :=
  let current := weekOccurrence name now in
  if TimezoneHandler.isBeforeDay current now
  then TimezoneHandler.addDays 7 current
  else current.

Definition nextWeekday (name : string) (now : TimezoneHandler.moment)
  : TimezoneHandler.moment :=
  TimezoneHandler.addDays 7 (thisWeekday name now).

(** The hour that a zone of offset [offsetB] shows at the instant at which
    a zone of offset [offsetA] shows [hour]:00; offsets in minutes. *)
Definition convertedHour (offsetA offsetB hour : Z) : Z :=
  (hour * 60 + (offsetB - offsetA)) mod 1440 / 60.

(** The score of one side of a suggestion: 1 in the ideal window from
    10:00 to 16:00 and one half outside, less one half before 9:00 or
    after 17:00. *)
Definition sideScore (hour : Z) : Q :=
  ((if (10 <=? hour) && (hour <=? 16) then 1 else 1 # 2)
   - (if (hour <? 9) || (17 <? hour) then 1 # 2 else 0))%Q.

(** The order of the suggestions: by decreasing score, and by increasing
    instant (the hour of the first zone) among equal scores. *)
Definition ranksBefore (a b : TimezoneHandler.suggestion) : Prop :=
  (TimezoneHandler.score b < TimezoneHandler.score a)%Q
  \/ ((TimezoneHandler.score a == TimezoneHandler.score b)%Q
      /\ TimezoneHandler.dateTime a < TimezoneHandler.dateTime b).

Definition earlier (a b : TimezoneHandler.suggestion) : Prop :=
  TimezoneHandler.dateTime a < TimezoneHandler.dateTime b.

(** A start falls within a busy interval from its first instant on, an
    end up to its last one; touching the interval from outside is not
    falling within it. *)
Definition startsWithin (b : CalendarService.busy) (t : Z) : Prop :=
  CalendarService.busyStart b <= t < CalendarService.busyEnd b.
Definition endsWithin (b : CalendarService.busy) (t : Z) : Prop :=
  CalendarService.busyStart b < t <= CalendarService.busyEnd b.

(** Business hours: a slot of one day, from 09:00 at the earliest to
    17:00 at the latest. *)
Definition withinBusinessHours (s : CalendarService.slot) : Prop :=
  let day := CalendarService.start s / CalendarService.msPerDay
             * CalendarService.msPerDay in
  day + 9 * CalendarService.msPerHour <= CalendarService.start s
  /\ CalendarService.end_ s <= day + 17 * CalendarService.msPerHour.

Definition intersects (s : CalendarService.slot) (b : CalendarService.busy) : Prop :=
  CalendarService.start s < CalendarService.busyEnd b
  /\ CalendarService.busyStart b < CalendarService.end_ s.

(** A pattern whose character tests do not tell a letter from its lower
    case: every pattern written with the [i] flag is one. *)
Inductive caseBlind : re -> Prop :=
  | blind_eps : caseBlind Eps
  | blind_chr p : (forall c, p (toLower c) = p c) -> caseBlind (Chr p)
  | blind_seq r1 r2 : caseBlind r1 -> caseBlind r2 -> caseBlind (Seq r1 r2)
  | blind_alt r1 r2 : caseBlind r1 -> caseBlind r2 -> caseBlind (Alt r1 r2)
  | blind_star r : caseBlind r -> caseBlind (Star r)
  | blind_bound : caseBlind Bound
  | blind_group n r : caseBlind r -> caseBlind (Group n r).

(** Two matcher states that differ in the case of the letters only. *)
Definition sameUpToCase (s s' : st) : Prop :=
  rest s' = map toLower (rest s) /\ wordAt (prev s') = wordAt (prev s).

(** The character before the cursor once the run [ds] has been passed. *)
Definition passed (prev : option ascii) (ds : list ascii) : option ascii :=
  from_option Some prev (last ds).

(** Where a run of characters of a class stops. *)
Definition stops (p : ascii -> bool) (t : list ascii) : Prop :=
  match t with
  | c :: _ => p c = false
  | [] => True
  end.

(** The units of the duration patterns. *)
Definition minuteUnits : re := unitRe ["minute"; "min"; "minutes"].
Definition hourUnits : re := unitRe ["hour"; "hr"; "hours"].

(** A duration pattern: digits, captured, then [tail]. *)
Definition digitsThen (tail : re) : re := Seq (Group 1 (Plus (Chr isDigit))) tail.

(** [tail] cannot start on a digit. *)
Definition notOnDigit (tail : re) : Prop :=
  forall A p c t cs (k : st -> option A),
    isDigit c = true -> run tail (St p (c :: t) cs) k = None.





End Spec.

(** ** Sample hosts, requests and replies *)

Module Samples.

Import AIProcessor.

Definition quote : string := String "034"%char EmptyString.

Definition noChrono : string -> list chronoStart := fun _ => [].

(** The body of a successful completion whose message carries [content]. *)
Definition completion (content : string) : jsval :=
  VObj {[ "choices" :=
            VArr [ VObj {[ "message" := VObj {[ "content" := VStr content ]} ]} ] ]}.

Definition replies (r : response) : string -> jsval -> jsval -> outcome response :=
  fun _ _ _ => Ret r.

(** A [JSON.parse] that knows one text. *)
Definition parses (text : string) (v : jsval) : jsval -> outcome jsval :=
  fun c =>
    match c with
    | VStr s => if String.eqb s text then Ret v else Throw "SyntaxError"
    | _ => Throw "SyntaxError"
    end.

(** [{"duration": "an hour"}] *)
Definition badDurationText : string :=
  ("{" +:+ quote +:+ "duration" +:+ quote +:+ ": "
       +:+ quote +:+ "an hour" +:+ quote +:+ "}")%string.
Definition badDuration : jsval := VObj {[ "duration" := VStr "an hour" ]}.

(** [{"date": "2024-01-01"}] *)
Definition dateOnlyText : string :=
  ("{" +:+ quote +:+ "date" +:+ quote +:+ ": "
       +:+ quote +:+ "2024-01-01" +:+ quote +:+ "}")%string.
Definition dateOnly : gmap string jsval := {[ "date" := VStr "2024-01-01" ]}.

(** The local parse of a command without date, for a participant whose
    address is known. *)
Definition knownEmail : gmap string jsval := <["email" := VStr "a@x.com"]> emptyParse.

Definition serverError : response := Response false 500 (Throw "SyntaxError").

(** The instant [h:m] of the first day, and the window that
    [checkAvailability] passes for that day. *)
Definition clock (h m : Z) : Z := (h * 60 + m) * CalendarService.msPerMinute.
Definition dayStart : Z := 0.
Definition dayEnd : Z := CalendarService.msPerDay - 1.

(** 1970-01-07, a Wednesday, at noon. *)
Definition wednesday : TimezoneHandler.moment :=
  TimezoneHandler.Moment 6 (12 * CalendarService.msPerHour).

(** Zone offsets at standard time, in minutes, and the default options
    of [suggestMeetingTimes] for the day of the instant 0. *)
Definition offsets (zone : string) : Z :=
  if String.eqb zone "America/New_York" then -300
  else if String.eqb zone "America/Los_Angeles" then -480
  else if String.eqb zone "Asia/Kolkata" then 330
  else if String.eqb zone "Pacific/Auckland" then 720
  else 0.
Definition defaults : TimezoneHandler.options := TimezoneHandler.Options 0 30 9 17.

End Samples.

(* ================================================================== *)
(** * Duration extraction *)
(* ================================================================== *)

Section Duration.

Import AIProcessor.

Variable chronoParse : string -> list chronoStart.
Variable systemTimeZone : string.
Variable context : jsval.

Lemma localParse_duration command :
  getProp (localParse chronoParse systemTimeZone command context) "duration"
  = Ret (match extractDuration durationPatterns command with
         | Some d => VNum d
         | None => VNull
         end).
Proof.
  unfold localParse. cbn [getProp]. f_equal.
  destruct (extractDuration durationPatterns command) as [d|]; cbn [fmap option_fmap option_map setSome].
  - destruct (extractPlatform _ _), (exec timezoneToken command); cbn [fmap option_fmap option_map setSome];
      rewrite ?lookup_insert_ne by done; rewrite lookup_insert_eq; done.
  - destruct (extractPlatform _ _), (exec timezoneToken command); cbn [fmap option_fmap option_map setSome];
      rewrite ?lookup_insert_ne by done.
    all: destruct (chronoParse command) as [|c ?]; [|destruct (isCertainHour c)];
      unfold setIf; repeat (case_match; rewrite ?lookup_insert_ne by done); done.
Qed.

(** C2.  The code at the three commands of the claim: the minute mention
    gives 45 and the command without a mention leaves the duration
    absent, but "1.5 hours" gives 300, not 90: the whole-hour pattern is
    tried before the fractional one and matches "5 hours". *)
Theorem localParse_duration_commands :
  getProp (localParse chronoParse systemTimeZone "let's meet for 1.5 hours" context)
          "duration" = Ret (VNum 300)
  /\ getProp (localParse chronoParse systemTimeZone "a 45 minute call" context)
             "duration" = Ret (VNum 45)
  /\ getProp (localParse chronoParse systemTimeZone "no duration mentioned" context)
             "duration" = Ret VNull.
Proof.
  rewrite !localParse_duration. repeat split; vm_compute; reflexivity.
Qed.

End Duration.

(* ================================================================== *)
(** * The request refiner *)
(* ================================================================== *)

Section Refiner.

Import AIProcessor Spec.

Variable remote : string -> jsval -> jsval -> outcome response.
Variable JSON_parse : jsval -> outcome jsval.

(** The refiner on a reply that went through: the merge, or the local
    parse when building the merge throws. *)
Lemma aiEnhancedParse_success command context localParse r data content aiParsed :
  remote command context localParse = Ret r ->
  ok r = true ->
  json r = Ret data ->
  messageContent data = Ret content ->
  JSON_parse content = Ret aiParsed ->
  aiEnhancedParse remote JSON_parse command context localParse
  = try_catch (mergeParses localParse aiParsed) localParse.
Proof.
  intros Hr Hok Hj Hc Hp. unfold aiEnhancedParse.
  rewrite Hr. cbn. rewrite Hok. cbn. rewrite Hj. cbn. rewrite Hc. cbn.
  rewrite Hp. reflexivity.
Qed.

(** C3, as amended.  Whenever the remote call fails in a way the code
    tells apart (an error thrown, a non-success status, a body that is
    not JSON or lacks the message content, a content that is not JSON or
    is [null]) the refiner returns its [localParse] argument itself; no
    error leaves it, its result being a value in every case. *)
Theorem aiEnhancedParse_falls_back command context localParse :
  callFails remote JSON_parse command context localParse ->
  aiEnhancedParse remote JSON_parse command context localParse = localParse.
Proof.
  intros H. unfold aiEnhancedParse.
  destruct H as [e Hr|r Hr Hok|r e Hr Hj|r data e Hr Hj Hc
                |r data content e Hr Hj Hc Hp|r data content Hr Hj Hc Hp];
    rewrite Hr; cbn; try reflexivity;
    try (rewrite Hok; reflexivity);
    destruct (ok r); cbn; try reflexivity; rewrite Hj; cbn; try reflexivity;
    rewrite Hc; cbn; try reflexivity; rewrite Hp; reflexivity.
Qed.

(** C4.  On a reply that went through, with an object for the local parse
    and an object for the model's answer, the result is an object in
    which every field other than the participant name and the email is
    the model's when the model's answer has it and the local one
    otherwise, and in which the participant name and the email are the
    model's when it gives one and the local ones when the model omits
    them (or leaves them empty). *)
Theorem aiEnhancedParse_merges command context (localParse aiParsed : gmap string jsval)
        r data content :
  remote command context (VObj localParse) = Ret r ->
  ok r = true ->
  json r = Ret data ->
  messageContent data = Ret content ->
  JSON_parse content = Ret (VObj aiParsed) ->
  exists merged : gmap string jsval,
    aiEnhancedParse remote JSON_parse command context (VObj localParse) = VObj merged
    /\ (forall k v, k <> "participantName" -> k <> "email" ->
                    aiParsed !! k = Some v -> merged !! k = Some v)
    /\ (forall k, k <> "participantName" -> k <> "email" ->
                  aiParsed !! k = None -> merged !! k = localParse !! k)
    /\ (forall k, k = "participantName" \/ k = "email" ->
                  aiParsed !! k = None ->
                  merged !! k = Some (default VUndefined (localParse !! k)))
    /\ (forall k v, k = "participantName" \/ k = "email" ->
                    aiParsed !! k = Some v ->
                    merged !! k = Some (if truthy v then v
                                        else default VUndefined (localParse !! k))).
Proof.
  intros Hr Hok Hj Hc Hp.
  rewrite (aiEnhancedParse_success _ _ _ _ _ _ _ Hr Hok Hj Hc Hp).
  unfold mergeParses, propOr. cbn.
  destruct (truthy (default VUndefined (aiParsed !! "participantName"))) eqn:Hn;
    destruct (truthy (default VUndefined (aiParsed !! "email"))) eqn:He; cbn;
    (eexists; split; [reflexivity|]);
    (split; [|split; [|split]]).
  all: try (intros k v Hk1 Hk2 Hk; rewrite !lookup_insert_ne by done;
            unfold spread2; cbn; rewrite lookup_union, Hk;
            destruct (localParse !! k); reflexivity).
  all: try (intros k Hk1 Hk2 Hk; rewrite !lookup_insert_ne by done;
            unfold spread2; cbn; rewrite lookup_union, Hk;
            destruct (localParse !! k); reflexivity).
  all: try (intros k [-> | ->] Hk; rewrite Hk in *; cbn in *;
            rewrite ?lookup_insert_eq;
            rewrite ?lookup_insert_ne by done; rewrite ?lookup_insert_eq;
            first [reflexivity | discriminate]).
  all: intros k v [-> | ->] Hk; rewrite Hk in *; cbn in *;
       rewrite ?Hn, ?He;
       rewrite ?lookup_insert_eq;
       rewrite ?lookup_insert_ne by done; rewrite ?lookup_insert_eq; reflexivity.
Qed.

End Refiner.

Section RefinerExamples.

Import AIProcessor Spec Samples.

(** The example of C4: the local parse knows the email and no date, the
    model answers with a date only; the merged request has both. *)
Lemma aiEnhancedParse_merges_example :
  let result :=
    aiEnhancedParse (replies (Response true 200 (Ret (completion dateOnlyText))))
                    (parses dateOnlyText (VObj dateOnly))
                    "schedule a call" VUndefined (VObj knownEmail) in
  getProp result "email" = Ret (VStr "a@x.com")
  /\ getProp result "date" = Ret (VStr "2024-01-01").
Proof.
  destruct (aiEnhancedParse_merges
              (replies (Response true 200 (Ret (completion dateOnlyText))))
              (parses dateOnlyText (VObj dateOnly))
              "schedule a call" VUndefined knownEmail dateOnly
              (Response true 200 (Ret (completion dateOnlyText)))
              (completion dateOnlyText) (VStr dateOnlyText)
              eq_refl eq_refl eq_refl eq_refl eq_refl)
    as (merged & Heq & Hai & _ & Hlocal & _).
  cbv zeta. rewrite Heq. cbn [getProp]. split.
  - rewrite (Hlocal "email" (or_intror eq_refl) eq_refl). reflexivity.
  - rewrite (Hai "date" (VStr "2024-01-01")); [reflexivity|discriminate|discriminate|reflexivity].
Defined.

(** The fallback at a reply with status 500. *)
Lemma aiEnhancedParse_falls_back_on_500 :
  aiEnhancedParse (replies serverError) (parses dateOnlyText (VObj dateOnly))
                  "schedule a call" VUndefined (VObj knownEmail)
  = VObj knownEmail.
Proof.
  apply aiEnhancedParse_falls_back.
  apply (fails_status _ _ _ _ _ serverError); reflexivity.
Defined.

(** C3 as stated fails: a reply with status 200 whose content is JSON but
    breaks the response schema (a duration that is not a number) is not
    treated as a failure; the refiner returns the merge, which differs
    from the local parse. *)
Lemma aiEnhancedParse_keeps_schema_violation :
  conformsToSchema badDuration = false
  /\ aiEnhancedParse (replies (Response true 200 (Ret (completion badDurationText))))
                     (parses badDurationText badDuration)
                     "schedule a call" VUndefined (VObj knownEmail)
     <> VObj knownEmail.
Proof.
  split; [reflexivity|].
  intros H.
  assert (Hd : getProp (aiEnhancedParse
                 (replies (Response true 200 (Ret (completion badDurationText))))
                 (parses badDurationText badDuration)
                 "schedule a call" VUndefined (VObj knownEmail)) "duration"
               = Ret (VStr "an hour")) by (vm_compute; reflexivity).
  rewrite H in Hd. vm_compute in Hd. discriminate.
Qed.

End RefinerExamples.

(* ================================================================== *)
(** * The validator *)
(* ================================================================== *)

Section Validator.

Import BackgroundService Spec.

(** C5.  On every parsed request (an object, whatever its fields) and
    every context (any value, absent included) the validator returns a
    result.  Its missing list is the list email, date, time without the
    fields that are satisfied, in that order; the email is satisfied by
    the parsed request or by the participant of the context, the date and
    the time by the parsed request only; the result is valid exactly when
    nothing is missing.  For a parse with no field at all, or with every
    field null, and no context email, the three fields are missing and
    the result is not valid. *)
Theorem validateMeetingData_total (parsed : gmap string jsval) (context : jsval) :
  (exists v,
      validateMeetingData (VObj parsed) context = Ret v
      /\ missing v = List.filter (fun f => negb (satisfied parsed context f)) requiredFields
      /\ (isValid v = true <-> missing v = []))
  /\ satisfied parsed context "email"
     = truthy (default VUndefined (parsed !! "email"))
       || truthy (getPropOpt (getPropOpt context "participantInfo") "email")
  /\ satisfied parsed context "date" = truthy (default VUndefined (parsed !! "date"))
  /\ satisfied parsed context "time" = truthy (default VUndefined (parsed !! "time"))
  /\ validateMeetingData (VObj ∅) VUndefined
     = Ret (Validation false ["email"; "date"; "time"])
  /\ validateMeetingData (VObj AIProcessor.emptyParse) (VObj ∅)
     = Ret (Validation false ["email"; "date"; "time"]).
Proof.
  split; [|repeat split; reflexivity].
  eexists. split; [reflexivity|]. cbn [missing isValid].
  unfold requiredFields, satisfied, push.
  cbn [List.filter String.eqb Ascii.eqb Bool.eqb].
  destruct (truthy (default VUndefined (parsed !! "email")));
    destruct (truthy (getPropOpt (getPropOpt context "participantInfo") "email"));
    destruct (truthy (default VUndefined (parsed !! "date")));
    destruct (truthy (default VUndefined (parsed !! "time")));
    (split; [vm_compute; reflexivity | vm_compute; split; congruence]).
Qed.

End Validator.

(* ================================================================== *)
(** * The timezone resolver *)
(* ================================================================== *)

Section Resolver.

Import TimezoneHandler.

Lemma firstMatch_Some ps text tz :
  firstMatch ps text = Some tz <->
  exists i p, ps !! i = Some (p, tz) /\ test p text = true
              /\ forall j q z, (j < i)%nat -> ps !! j = Some (q, z) -> test q text = false.
Proof.
  induction ps as [|[p z] ps IH]; cbn [firstMatch].
  - split; [discriminate|]. intros (i & q & H & _). destruct i; discriminate.
  - destruct (test p text) eqn:Hp.
    + split.
      * intros [= <-]. exists 0%nat, p. repeat split; [assumption|]. intros j ? ? Hj. lia.
      * intros (i & q & Hi & Hq & Hfirst). destruct i as [|i].
        -- cbn in Hi. congruence.
        -- specialize (Hfirst 0%nat p z). cbn in Hfirst.
           rewrite Hfirst in Hp by (lia || reflexivity). discriminate.
    + rewrite IH. split.
      * intros (i & q & Hi & Hq & Hfirst). exists (S i), q. repeat split; [assumption..|].
        intros [|j] q' z' Hj Hl.
        -- cbn in Hl. congruence.
        -- cbn in Hl. apply (Hfirst j q' z'); [lia|assumption].
      * intros (i & q & Hi & Hq & Hfirst). destruct i as [|i].
        -- cbn in Hi. congruence.
        -- exists i, q. repeat split; [assumption..|].
           intros j q' z' Hj Hl. apply (Hfirst (S j) q' z'); [lia|assumption].
Qed.

Lemma firstMatch_None ps text :
  firstMatch ps text = None <-> Forall (fun pz => test (fst pz) text = false) ps.
Proof.
  induction ps as [|[p z] ps IH]; cbn [firstMatch].
  - split; [constructor|reflexivity].
  - destruct (test p text) eqn:Hp.
    + split; [discriminate|]. intros H. inversion H; subst. cbn in *. congruence.
    + rewrite IH. split.
      * intros H. constructor; assumption.
      * intros H. inversion H; assumption.
Qed.

(** C8.  The resolver returns a zone exactly when it is the zone of the
    first pattern, in the order of the table, that matches the text, and
    returns nothing exactly when no pattern matches; being a function, it
    returns in every case.  "I'm on PST tonight" resolves to
    America/Los_Angeles and "see you in gibberish" to nothing; "Berlin",
    which two patterns match, resolves to the zone of the earlier one. *)
Theorem parseTimezoneFromText_first_match :
  (forall text tz,
      parseTimezoneFromText text = Some tz <->
      exists i p, timezonePatterns !! i = Some (p, tz) /\ test p text = true
                  /\ forall j q z, (j < i)%nat -> timezonePatterns !! j = Some (q, z) ->
                                   test q text = false)
  /\ (forall text,
         parseTimezoneFromText text = None <->
         Forall (fun pz => test (fst pz) text = false) timezonePatterns)
  /\ parseTimezoneFromText "I'm on PST tonight" = Some "America/Los_Angeles"
  /\ parseTimezoneFromText "see you in gibberish" = None
  /\ (test (wordOf ["CET"; "Paris"; "Berlin"]) "Berlin" = true
      /\ test (place "Berlin") "Berlin" = true
      /\ parseTimezoneFromText "Berlin" = Some "Europe/Paris").
Proof.
  split; [intros; apply firstMatch_Some|].
  split; [intros; apply firstMatch_None|].
  repeat split; vm_compute; reflexivity.
Qed.

End Resolver.

(* ================================================================== *)
(** * The slot finder *)
(* ================================================================== *)

Section SlotFinder.

Import CalendarService Spec Samples.

Lemma conflicts_spec currentTime slotEnd b :
  conflicts currentTime slotEnd b = true <->
  startsWithin b currentTime \/ endsWithin b slotEnd.
Proof.
  unfold conflicts, startsWithin, endsWithin.
  rewrite orb_true_iff, !andb_true_iff, !Z.leb_le, !Z.ltb_lt. tauto.
Qed.

Lemma isAvailable_spec currentTime slotEnd busySlots :
  isAvailable currentTime slotEnd busySlots = true <->
  forall b, In b busySlots -> ~ startsWithin b currentTime /\ ~ endsWithin b slotEnd.
Proof.
  unfold isAvailable. rewrite negb_true_iff. split.
  - intros H b Hb.
    assert (Hc : conflicts currentTime slotEnd b = false).
    { destruct (conflicts currentTime slotEnd b) eqn:E; [|reflexivity].
      assert (existsb (conflicts currentTime slotEnd) busySlots = true)
        by (apply existsb_exists; eauto).
      congruence. }
    split; intros Hw; apply not_true_iff_false in Hc; apply Hc;
      apply conflicts_spec; tauto.
  - intros H. destruct (existsb _ busySlots) eqn:E; [|reflexivity].
    apply existsb_exists in E. destruct E as (b & Hb & Hc).
    apply conflicts_spec in Hc. destruct (H b Hb). tauto.
Qed.

(** One more iteration is one fewer left. *)
Lemma iterations_step endDate currentTime next :
  currentTime < endDate ->
  currentTime + 30 * msPerMinute <= next ->
  (S (iterations endDate next) <= iterations endDate currentTime)%nat.
Proof.
  unfold iterations, msPerMinute. intros Hlt Hnext.
  assert (H0 : 0 <= (endDate - currentTime) / (30 * 60000))
    by (apply Z.div_pos; lia).
  assert (H1 : (endDate - next) / (30 * 60000)
               <= (endDate - currentTime) / (30 * 60000) - 1).
  { replace ((endDate - currentTime) / (30 * 60000) - 1)
      with ((endDate - currentTime + (-1) * (30 * 60000)) / (30 * 60000))
      by (rewrite Z.div_add by lia; lia).
    apply Z.div_le_mono; lia. }
  lia.
Qed.

Lemma setHours_nextDate currentTime :
  currentTime + 30 * msPerMinute <= setHours businessHoursStart (nextDate currentTime).
Proof.
  unfold setHours, nextDate, businessHoursStart, msPerDay, msPerHour, msPerMinute.
  pose proof (Z.mod_pos_bound (currentTime + 86400000) 86400000 eq_refl).
  pose proof (Z.div_mod (currentTime + 86400000) 86400000 ltac:(lia)).
  lia.
Qed.

(** The bound on the iterations is enough: any larger one gives the same
    slots, so that the scan ends because the window is exhausted. *)
Lemma scan_enough endDate busySlots duration fuel1 :
  forall fuel2 currentTime,
    (iterations endDate currentTime <= fuel1)%nat ->
    (iterations endDate currentTime <= fuel2)%nat ->
    scan fuel1 endDate busySlots duration currentTime
    = scan fuel2 endDate busySlots duration currentTime.
Proof.
  induction fuel1 as [|fuel1 IH]; intros fuel2 currentTime H1 H2.
  - assert (Hge : (currentTime <? endDate) = false).
    { apply Z.ltb_ge. destruct (Z_lt_le_dec currentTime endDate) as [Hlt|]; [|assumption].
      pose proof (iterations_step endDate currentTime _ Hlt (Z.le_refl _)). lia. }
    destruct fuel2; cbn [scan]; [reflexivity|]. rewrite Hge. reflexivity.
  - destruct fuel2 as [|fuel2].
    + assert (Hge : (currentTime <? endDate) = false).
      { apply Z.ltb_ge. destruct (Z_lt_le_dec currentTime endDate) as [Hlt|]; [|assumption].
        pose proof (iterations_step endDate currentTime _ Hlt (Z.le_refl _)). lia. }
      cbn [scan]. rewrite Hge. reflexivity.
    + cbn [scan]. destruct (currentTime <? endDate) eqn:Hlt; [|reflexivity].
      apply Z.ltb_lt in Hlt.
      pose proof (iterations_step endDate currentTime _ Hlt (Z.le_refl _)).
      pose proof (iterations_step endDate currentTime _ Hlt (setHours_nextDate currentTime)).
      destruct (businessHoursEnd <? getHours _).
      * apply IH; lia.
      * f_equal. apply IH; lia.
Qed.

(** The bound that [findAvailableSlots] gives to the scan can be replaced
    by any larger one. *)
Lemma findAvailableSlots_exhausts startDate endDate busySlots duration fuel :
  (iterations endDate (setHours businessHoursStart startDate) <= fuel)%nat ->
  scan fuel endDate busySlots duration (setHours businessHoursStart startDate)
  = findAvailableSlots startDate endDate busySlots duration.
Proof. intros H. unfold findAvailableSlots. apply scan_enough; [exact H|lia]. Qed.

(** What the scan guarantees of each slot it returns. *)
Lemma scan_sound endDate busySlots duration fuel :
  forall currentTime s,
    In s (scan fuel endDate busySlots duration currentTime) ->
    currentTime <= start s < endDate
    /\ end_ s = start s + duration * msPerMinute
    /\ getHours (end_ s) <= businessHoursEnd
    /\ isAvailable (start s) (end_ s) busySlots = true.
Proof.
  induction fuel as [|fuel IH]; intros currentTime s Hs; cbn [scan] in Hs; [destruct Hs|].
  destruct (Z.ltb_spec currentTime endDate) as [Hlt|]; [|destruct Hs].
  destruct (Z.ltb_spec businessHoursEnd (getHours (currentTime + duration * msPerMinute)))
    as [|Hhour].
  - apply IH in Hs. pose proof (setHours_nextDate currentTime).
    unfold msPerMinute in *. intuition lia.
  - apply in_app_or in Hs. destruct Hs as [Hs|Hs].
    + destruct (isAvailable currentTime _ busySlots) eqn:Hav; [|destruct Hs].
      destruct Hs as [<-|[]]. cbn [start end_]. intuition lia.
    + apply IH in Hs. unfold msPerMinute in *. intuition lia.
Qed.

(** C7.  A candidate is accepted exactly when, for every busy interval,
    its start does not fall within the interval and its end does not
    fall within it, touching the interval from outside not counting; and
    every slot that the finder returns is an accepted candidate.
    With the interval 10:00-10:30 busy and a duration of 30 minutes, the
    candidate 09:30-10:00 is returned, no slot starting at 10:00 is, and
    the candidate 10:30-11:00 is returned. *)
Theorem isAvailable_boundaries :
  (forall currentTime slotEnd busySlots,
      isAvailable currentTime slotEnd busySlots = true <->
      forall b, In b busySlots ->
                ~ startsWithin b currentTime /\ ~ endsWithin b slotEnd)
  /\ (forall startDate endDate busySlots duration s,
         In s (findAvailableSlots startDate endDate busySlots duration) ->
         forall b, In b busySlots ->
                   ~ startsWithin b (start s) /\ ~ endsWithin b (end_ s))
  /\ (let slots := findAvailableSlots dayStart dayEnd
                     [Busy (clock 10 0) (clock 10 30)] 30 in
      In (Slot (clock 9 30) (clock 10 0)) slots
      /\ Forall (fun s => start s <> clock 10 0) slots
      /\ In (Slot (clock 10 30) (clock 11 0)) slots).
Proof.
  split; [apply isAvailable_spec|]. split.
  - intros startDate endDate busySlots duration s Hs.
    apply scan_sound in Hs. apply isAvailable_spec. tauto.
  - vm_compute. split; [|split].
    + tauto.
    + repeat (constructor; [discriminate|]). constructor.
    + tauto.
Qed.

(** C1, the code at two inputs.  For the window of one day, no busy
    interval and a duration of 30 minutes the slot 17:00-17:30 is
    returned, which ends after business hours; with the interval
    10:15-10:45 busy and a duration of 60 minutes the slot 10:00-11:00 is
    returned, which covers the busy interval. *)
Theorem findAvailableSlots_outside_claim :
  (In (Slot (clock 17 0) (clock 17 30)) (findAvailableSlots dayStart dayEnd [] 30)
   /\ ~ withinBusinessHours (Slot (clock 17 0) (clock 17 30)))
  /\ (In (Slot (clock 10 0) (clock 11 0))
         (findAvailableSlots dayStart dayEnd [Busy (clock 10 15) (clock 10 45)] 60)
      /\ intersects (Slot (clock 10 0) (clock 11 0)) (Busy (clock 10 15) (clock 10 45))).
Proof.
  repeat split.
  - vm_compute. tauto.
  - unfold withinBusinessHours. vm_compute. intros [_ H]. apply H. reflexivity.
  - vm_compute. tauto.
Qed.

End SlotFinder.

(* ================================================================== *)
(** * Weekday resolution *)
(* ================================================================== *)

Section Weekdays.

Import TimezoneHandler Spec Samples.

Variable addMonths : Z -> moment -> moment.

(** Case analysis on the seven names. *)
Ltac each_weekday H :=
  cbn in H; decompose [or] H; subst; try contradiction.

(** The day the code takes for the occurrence of a named weekday in the
    week of the reference, and its distance to the reference day. *)
Lemma setDay_distance n now :
  0 <= n <= 6 ->
  let target := setDay n now in
  mday now <= mday (if isBeforeDay target now then addDays 7 target else target)
           <= mday now + 6.
Proof.
  intros Hn. cbv zeta. unfold isBeforeDay, setDay, addDays, dayOfWeek. cbn [mday].
  pose proof (Z.mod_pos_bound (mday now + 4) 7 eq_refl).
  destruct (Z.ltb_spec (mday now + (n - (mday now + 4) mod 7)) (mday now)); cbn [mday]; lia.
Qed.

(** What the code does with the two modifiers, for each of the seven
    names, with [current] the day that it takes for the occurrence of the
    name in the week of the reference: "this" resolves to [current] when
    it is not before the reference day and to one week after [current]
    when it is; "next" resolves to one week after [current], that is one
    full week beyond "this" when the day has not passed and the same date
    as "this" when it has. *)
Lemma parseRelativeTime_modifiers now name :
  In name daysOfWeek ->
  let current := setDay (indexOf name daysOfWeek) now in
  let this := if isBeforeDay current now then addDays 7 current else current in
  parseRelativeTime addMonths ("this " +:+ name) now = Some this
  /\ parseRelativeTime addMonths ("next " +:+ name) now = Some (addDays 7 current)
  /\ mday now <= mday this <= mday now + 6
  /\ (isBeforeDay current now = false ->
      parseRelativeTime addMonths ("next " +:+ name) now = Some (addDays 7 this))
  /\ (isBeforeDay current now = true ->
      parseRelativeTime addMonths ("next " +:+ name) now = Some this).
Proof.
  intros Hname. cbv zeta.
  assert (Hthis : parseRelativeTime addMonths ("this " +:+ name) now
                  = Some (if isBeforeDay (setDay (indexOf name daysOfWeek) now) now
                          then addDays 7 (setDay (indexOf name daysOfWeek) now)
                          else setDay (indexOf name daysOfWeek) now)).
  { each_weekday Hname; reflexivity. }
  assert (Hnext : parseRelativeTime addMonths ("next " +:+ name) now
                  = Some (addDays 7 (setDay (indexOf name daysOfWeek) now))).
  { each_weekday Hname; reflexivity. }
  assert (Hidx : 0 <= indexOf name daysOfWeek <= 6).
  { each_weekday Hname; vm_compute; split; discriminate. }
  repeat split.
  - exact Hthis.
  - exact Hnext.
  - apply (setDay_distance _ now Hidx).
  - apply (setDay_distance _ now Hidx).
  - intros Hb. rewrite Hb. exact Hnext.
  - intros Hb. rewrite Hb. exact Hnext.
Qed.

(** The weekday on which the code lands for the day number [n]. *)
Lemma setDay_weekday n now :
  0 <= n <= 6 ->
  let current := setDay n now in
  dayOfWeek (if isBeforeDay current now then addDays 7 current else current) = n
  /\ dayOfWeek (addDays 7 current) = n.
Proof.
  intros Hn. cbv zeta. unfold isBeforeDay, setDay, addDays, dayOfWeek. cbn [mday].
  destruct (Z.ltb_spec (mday now + (n - (mday now + 4) mod 7)) (mday now));
    cbn [mday]; split; Z.div_mod_to_equations; lia.
Qed.

(** "this <weekday>" as the calendar has it: the named weekday, from the
    reference day to six days later. *)
Lemma thisWeekday_calendar name now :
  In name calendarWeek ->
  dayOfWeek (thisWeekday name now) = weekdayNumber name
  /\ mday now <= mday (thisWeekday name now) <= mday now + 6.
Proof.
  intros Hname.
  assert (Hidx : 0 <= weekdayNumber name <= 6).
  { each_weekday Hname; vm_compute; split; discriminate. }
  unfold thisWeekday, weekOccurrence. cbv zeta.
  fold (setDay (weekdayNumber name) now).
  split.
  - apply (setDay_weekday _ now Hidx).
  - apply (setDay_distance _ now Hidx).
Qed.

(** C6.  The code does not resolve a named weekday to that weekday.  The
    names are numbered from Monday as 0 while the day setter of the
    library numbers the days of the week from Sunday as 0: for every
    reference instant and each of the seven names, "this <weekday>" and
    "next <weekday>" both resolve to the weekday before the named one, so
    to a date that is neither the occurrence that the claim gives to
    "this <weekday>" (the named weekday, from the reference day to six
    days later) nor the one it gives to "next <weekday>" (one week beyond);
    "this <weekday>" falls one day before the occurrence of the claim, or
    six days after it when that would be behind the reference day.  From
    Wednesday 1970-01-07, "this Friday" resolves to Thursday the 8th, one
    day later, where the claim has Friday the 9th, two days later. *)
Theorem parseRelativeTime_weekday_day_before now :
  Forall (fun name =>
    exists this next,
      parseRelativeTime addMonths ("this " +:+ name) now = Some this
      /\ parseRelativeTime addMonths ("next " +:+ name) now = Some next
      /\ dayOfWeek (thisWeekday name now) = weekdayNumber name
      /\ mday now <= mday (thisWeekday name now) <= mday now + 6
      /\ dayOfWeek this = (weekdayNumber name + 6) mod 7
      /\ dayOfWeek next = (weekdayNumber name + 6) mod 7
      /\ this <> thisWeekday name now
      /\ next <> nextWeekday name now
      /\ mday this = (if mday (thisWeekday name now) =? mday now
                      then mday (thisWeekday name now) + 6
                      else mday (thisWeekday name now) - 1)) daysOfWeek
  /\ parseRelativeTime addMonths "this Friday" wednesday = Some (addDays 1 wednesday)
  /\ thisWeekday "friday" wednesday = addDays 2 wednesday
  /\ dayOfWeek wednesday = 3.
Proof.
  split; [|repeat split].
  rewrite Forall_forall. intros name Hname. apply list_elem_of_In in Hname.
  destruct (parseRelativeTime_modifiers now name Hname) as (Hthis & Hnext & _).
  assert (Hcal : In name calendarWeek) by (each_weekday Hname; cbn; tauto).
  destruct (thisWeekday_calendar name now Hcal) as (Hday & Hrange).
  assert (Hidx : 0 <= indexOf name daysOfWeek <= 6
                 /\ indexOf name daysOfWeek = (weekdayNumber name + 6) mod 7
                 /\ indexOf name daysOfWeek <> weekdayNumber name).
  { each_weekday Hname; vm_compute; repeat split; discriminate. }
  destruct Hidx as (Hidx & Hoff & Hne).
  destruct (setDay_weekday _ now Hidx) as (Hcode & Hcode').
  eexists _, _. split; [exact Hthis|]. split; [exact Hnext|].
  split; [exact Hday|]. split; [exact Hrange|].
  split; [rewrite Hcode; exact Hoff|]. split; [rewrite Hcode'; exact Hoff|].
  split; [intros Heq; rewrite <- Heq, Hcode in Hday; contradiction|].
  split.
  - intros Heq.
    assert (Hw : dayOfWeek (nextWeekday name now) = weekdayNumber name).
    { unfold nextWeekday. rewrite <- Hday. unfold dayOfWeek, addDays. cbn [mday].
      Z.div_mod_to_equations. lia. }
    rewrite <- Heq, Hcode' in Hw. contradiction.
  - pose proof (setDay_distance _ now Hidx) as Hdist. cbv zeta in Hdist.
    revert Hcode Hdist Hday Hrange.
    generalize (if isBeforeDay (setDay (indexOf name daysOfWeek) now) now
                then addDays 7 (setDay (indexOf name daysOfWeek) now)
                else setDay (indexOf name daysOfWeek) now).
    generalize (thisWeekday name now).
    intros claimed this Hcode Hdist Hday Hrange.
    rewrite Hoff in Hcode. unfold dayOfWeek in *.
    assert (Hw : 0 <= weekdayNumber name <= 6).
    { each_weekday Hname; vm_compute; split; discriminate. }
    destruct (Z.eqb_spec (mday claimed) (mday now));
      Z.div_mod_to_equations; lia.
Qed.

End Weekdays.

Section WeekdayExamples.

Import TimezoneHandler Samples.

(** The modifier "next" adds its week once, whether the day has passed
    or not: from a Wednesday, "next Monday" resolves to the very date of
    "this Monday", not to one week beyond it. *)
Lemma parseRelativeTime_next_is_this_when_passed :
  dayOfWeek wednesday = 3
  /\ parseRelativeTime (fun _ m => m) "next Monday" wednesday
     = parseRelativeTime (fun _ m => m) "this Monday" wednesday
  /\ ~ (exists this,
           parseRelativeTime (fun _ m => m) "this Monday" wednesday = Some this
           /\ parseRelativeTime (fun _ m => m) "next Monday" wednesday
              = Some (addDays 7 this)).
Proof.
  split; [reflexivity|]. split; [reflexivity|].
  intros (this & Hthis & Hnext).
  vm_compute in Hthis, Hnext. injection Hthis as <-. discriminate.
Qed.

(** From a Wednesday, "this Friday" resolves to the next day, a Thursday,
    not to two days later. *)
Lemma parseRelativeTime_this_friday_from_wednesday :
  parseRelativeTime (fun _ m => m) "this Friday" wednesday = Some (addDays 1 wednesday)
  /\ dayOfWeek (addDays 1 wednesday) = 4.
Proof. split; reflexivity. Qed.

End WeekdayExamples.

(* ================================================================== *)
(** * Meeting-time suggestions *)
(* ================================================================== *)

Section Suggestions.

Import TimezoneHandler Spec.

Lemma calculateTimeScore_sides hour1 hour2 :
  (calculateTimeScore hour1 hour2 == sideScore hour1 + sideScore hour2)%Q.
Proof.
  unfold calculateTimeScore, sideScore. cbv zeta.
  destruct (Z.leb_spec 10 hour1), (Z.leb_spec hour1 16),
           (Z.ltb_spec hour1 9), (Z.ltb_spec 17 hour1); try lia;
    destruct (Z.leb_spec 10 hour2), (Z.leb_spec hour2 16),
             (Z.ltb_spec hour2 9), (Z.ltb_spec 17 hour2); try lia;
    vm_compute; reflexivity.
Qed.

(** *** The stable sort *)

Lemma insertSorted_perm x l : Permutation (insertSorted x l) (x :: l).
Proof.
  induction l as [|y l IH]; cbn [insertSorted]; [reflexivity|].
  destruct (Qle_bool (compareFn x y) 0); [reflexivity|].
  rewrite IH. apply perm_swap.
Qed.

Lemma sort_perm l : Permutation (sort l) l.
Proof.
  induction l as [|x l IH]; cbn [sort foldr]; [reflexivity|].
  fold (sort l). rewrite insertSorted_perm. constructor. exact IH.
Qed.

Lemma insertSorted_ranked x l :
  StronglySorted ranksBefore l ->
  Forall (earlier x) l ->
  StronglySorted ranksBefore (insertSorted x l).
Proof.
  induction l as [|y l IH]; intros Hs Hx; cbn [insertSorted].
  - repeat constructor.
  - apply StronglySorted_inv in Hs. destruct Hs as [Hs Hy].
    apply Forall_cons in Hx. destruct Hx as [Hxy Hx].
    destruct (Qle_bool (compareFn x y) 0) eqn:Hc.
    + apply Qle_bool_iff in Hc. unfold compareFn in Hc.
      constructor; [constructor; assumption|].
      constructor.
      * unfold ranksBefore, earlier in *.
        destruct (Qlt_le_dec (score y) (score x)); [left; assumption|right].
        split; [lra|assumption].
      * rewrite Forall_forall in Hy, Hx |- *. intros z Hz.
        specialize (Hy z Hz). specialize (Hx z Hz).
        unfold ranksBefore, earlier in *.
        destruct (Qlt_le_dec (score z) (score x)); [left; assumption|right].
        split; [|assumption]. destruct Hy as [Hy|[Hy _]]; lra.
    + assert (Hlt : (score x < score y)%Q).
      { destruct (Qlt_le_dec (score x) (score y)) as [|Hle]; [assumption|].
        assert (Qle_bool (compareFn x y) 0 = true)
          by (apply Qle_bool_iff; unfold compareFn; lra).
        congruence. }
      constructor; [apply IH; assumption|].
      rewrite Forall_forall. intros z Hz.
      rewrite list_elem_of_In in Hz.
      apply (Permutation_in _ (insertSorted_perm x l)) in Hz.
      destruct Hz as [<-|Hz].
      * left. assumption.
      * rewrite Forall_forall in Hy. apply Hy. apply list_elem_of_In. assumption.
Qed.

Lemma sort_ranked l :
  StronglySorted earlier l -> StronglySorted ranksBefore (sort l).
Proof.
  induction l as [|x l IH]; intros Hs; cbn [sort foldr]; [constructor|].
  fold (sort l). apply StronglySorted_inv in Hs. destruct Hs as [Hs Hx].
  apply insertSorted_ranked; [apply IH; assumption|].
  rewrite Forall_forall in Hx |- *. intros z Hz. apply Hx.
  rewrite list_elem_of_In in Hz |- *.
  apply (Permutation_in _ (sort_perm l)). assumption.
Qed.

Lemma seqZ_increasing len :
  forall m n, Z.to_nat n = len -> StronglySorted Z.lt (seqZ m n).
Proof.
  induction len as [|len IH]; intros m n Hn.
  - rewrite seqZ_nil by lia. constructor.
  - rewrite seqZ_cons by lia. constructor.
    + apply IH. lia.
    + apply Forall_seqZ. intros. lia.
Qed.

(** *** The enumeration *)

Variable utcOffset : string -> Z.
Variable hostZone timezone1 timezone2 : string.
Variable o : options.

Local Abbreviation time1 := (time1At utcOffset hostZone timezone1 o).
Local Abbreviation hour2 := (hour2At utcOffset hostZone timezone1 timezone2 o).

Lemma tryHour_In s hour :
  In s (tryHour utcOffset hostZone timezone1 timezone2 o hour) <->
  businessHoursStart o <= hour2 hour < businessHoursEnd o
  /\ s = Suggestion (minuteOfDay utcOffset timezone1 (time1 hour))
                    (minuteOfDay utcOffset timezone2 (time1 hour))
                    (time1 hour) (calculateTimeScore hour (hour2 hour)).
Proof.
  unfold tryHour. cbv zeta.
  destruct (Z.leb_spec (businessHoursStart o) (hour2 hour));
    destruct (Z.ltb_spec (hour2 hour) (businessHoursEnd o)); cbn [andb In];
    intuition (try lia; try congruence).
Qed.

Lemma candidates_In s :
  In s (candidates utcOffset hostZone timezone1 timezone2 o) <->
  exists hour, businessHoursStart o <= hour < businessHoursEnd o
               /\ In s (tryHour utcOffset hostZone timezone1 timezone2 o hour).
Proof.
  unfold candidates. rewrite in_concat. split.
  - intros (l & Hl & Hs). apply in_map_iff in Hl. destruct Hl as (hour & <- & Hh).
    exists hour. split; [|assumption].
    apply list_elem_of_In, elem_of_seqZ in Hh. lia.
  - intros (hour & Hh & Hs). eexists. split; [|exact Hs].
    apply in_map, list_elem_of_In, elem_of_seqZ. lia.
Qed.

Lemma time1_increasing h h' : h < h' <-> time1 h < time1 h'.
Proof. unfold time1At, atHour. cbv zeta. lia. Qed.

Lemma tryHours_earlier hs :
  StronglySorted Z.lt hs ->
  StronglySorted earlier
    (concat (map (tryHour utcOffset hostZone timezone1 timezone2 o) hs)).
Proof.
  induction 1 as [|h hs Hs IH Hh]; cbn [map concat]; [constructor|].
  apply StronglySorted_app_2; [|..|exact IH].
  - intros a b Ha Hb. rewrite list_elem_of_In in Ha, Hb.
    apply tryHour_In in Ha. destruct Ha as [_ ->].
    apply in_concat in Hb. destruct Hb as (l & Hl & Hb).
    apply in_map_iff in Hl. destruct Hl as (h' & <- & Hh').
    apply tryHour_In in Hb. destruct Hb as [_ ->].
    unfold earlier. cbn [dateTime]. apply (proj1 (time1_increasing h h')).
    rewrite Forall_forall in Hh. apply Hh, list_elem_of_In, Hh'.
  - unfold tryHour. destruct (_ && _); repeat constructor.
Qed.

Lemma candidates_earlier :
  StronglySorted earlier (candidates utcOffset hostZone timezone1 timezone2 o).
Proof. apply tryHours_earlier. eapply seqZ_increasing. reflexivity. Qed.

(** The hour of the second zone is the hour of the first zone moved by
    the difference of the two offsets, on the clock of 24 hours. *)
Lemma hour2At_converted hour :
  hour2 hour = convertedHour (utcOffset timezone1) (utcOffset timezone2) hour.
Proof.
  unfold hour2At, time1At, hourIn, minuteOfDay, atHour, convertedHour. cbv zeta.
  set (d := (startOfDay utcOffset hostZone (date o) + utcOffset timezone1) / 1440).
  replace (d * 1440 + hour * 60 - utcOffset timezone1 + utcOffset timezone2)
    with (hour * 60 + (utcOffset timezone2 - utcOffset timezone1) + d * 1440) by lia.
  rewrite Z.mod_add by lia. reflexivity.
Qed.

(** What the two zones show at the instant of a suggestion. *)
Lemma time1_shown hour :
  minuteOfDay utcOffset timezone1 (time1 hour) = (hour * 60) mod 1440
  /\ minuteOfDay utcOffset timezone2 (time1 hour)
     = (hour * 60 + (utcOffset timezone2 - utcOffset timezone1)) mod 1440.
Proof.
  unfold time1At, minuteOfDay, atHour. cbv zeta.
  set (d := (startOfDay utcOffset hostZone (date o) + utcOffset timezone1) / 1440).
  split.
  - replace (d * 1440 + hour * 60 - utcOffset timezone1 + utcOffset timezone1)
      with (hour * 60 + d * 1440) by lia.
    apply Z.mod_add. lia.
  - replace (d * 1440 + hour * 60 - utcOffset timezone1 + utcOffset timezone2)
      with (hour * 60 + (utcOffset timezone2 - utcOffset timezone1) + d * 1440) by lia.
    apply Z.mod_add. lia.
Qed.

(** C9.  The suggestions are at most five; each is the pair of a whole
    hour of the business window of the first zone with the hour that the
    second zone shows at that instant (the hour moved by the difference of
    the offsets of the two zones, on the clock of 24 hours), that hour
    being in the business window too; it carries the two times of day and
    its score is the sum of the scores of its two sides (1 in 10:00-16:00,
    one half outside, less one half before 9:00 or after 17:00); they are
    ranked by decreasing score and, among equal scores, by increasing
    hour of the first zone; and every such pair is among them, unless
    five suggestions that rank before it are returned. *)
Theorem suggestMeetingTimes_ranked :
  let result := suggestMeetingTimes utcOffset hostZone timezone1 timezone2 o in
  let hourB := convertedHour (utcOffset timezone1) (utcOffset timezone2) in
  (length result <= 5)%nat
  /\ (forall s, In s result ->
        exists hour,
          businessHoursStart o <= hour < businessHoursEnd o
          /\ businessHoursStart o <= hourB hour < businessHoursEnd o
          /\ tryHour utcOffset hostZone timezone1 timezone2 o hour = [s]
          /\ dateTime s = time1 hour
          /\ timezone1Time s = (hour * 60) mod 1440
          /\ timezone2Time s
             = (hour * 60 + (utcOffset timezone2 - utcOffset timezone1)) mod 1440
          /\ (score s == sideScore hour + sideScore (hourB hour))%Q)
  /\ StronglySorted ranksBefore result
  /\ (forall h h', h < h' <-> time1 h < time1 h')
  /\ (forall hour,
        businessHoursStart o <= hour < businessHoursEnd o ->
        businessHoursStart o <= hourB hour < businessHoursEnd o ->
        exists s,
          tryHour utcOffset hostZone timezone1 timezone2 o hour = [s]
          /\ (In s result
              \/ (length result = 5%nat
                  /\ Forall (fun s' => ranksBefore s' s) result))).
Proof.
  cbv zeta. unfold suggestMeetingTimes.
  pose proof (sort_ranked _ candidates_earlier) as Hsorted.
  pose proof (sort_perm (candidates utcOffset hostZone timezone1 timezone2 o)) as Hperm.
  set (sorted := sort (candidates utcOffset hostZone timezone1 timezone2 o)) in *.
  rewrite <- (take_drop 5 sorted) in Hsorted.
  split; [rewrite length_take; lia|].
  split; [|split; [|split]].
  - intros s Hs.
    assert (Hc : In s (candidates utcOffset hostZone timezone1 timezone2 o)).
    { apply (Permutation_in _ Hperm). rewrite <- (take_drop 5 sorted).
      apply in_or_app. left. exact Hs. }
    apply candidates_In in Hc. destruct Hc as (hour & Hh & Ht).
    pose proof Ht as Ht'. apply tryHour_In in Ht'. destruct Ht' as [Hh2 ->].
    pose proof (hour2At_converted hour) as Hconv.
    destruct (time1_shown hour) as [Hshown1 Hshown2].
    exists hour. cbn [dateTime timezone1Time timezone2Time score].
    split; [lia|]. split; [rewrite <- Hconv; lia|].
    split; [|split; [reflexivity|split; [exact Hshown1|split; [exact Hshown2|]]]].
    + unfold tryHour. cbv zeta.
      destruct (Z.leb_spec (businessHoursStart o) (hour2 hour)); [|lia].
      destruct (Z.ltb_spec (hour2 hour) (businessHoursEnd o)); [|lia].
      reflexivity.
    + rewrite <- Hconv. apply calculateTimeScore_sides.
  - eapply StronglySorted_app_1_l. exact Hsorted.
  - apply time1_increasing.
  - intros hour Hh Hh2. rewrite <- (hour2At_converted hour) in Hh2.
    assert (Ht : tryHour utcOffset hostZone timezone1 timezone2 o hour
                 = [Suggestion (minuteOfDay utcOffset timezone1 (time1 hour))
                               (minuteOfDay utcOffset timezone2 (time1 hour))
                               (time1 hour) (calculateTimeScore hour (hour2 hour))]).
    { unfold tryHour. cbv zeta.
      destruct (Z.leb_spec (businessHoursStart o) (hour2 hour)); [|lia].
      destruct (Z.ltb_spec (hour2 hour) (businessHoursEnd o)); [|lia].
      reflexivity. }
    eexists. split; [exact Ht|].
    match type of Ht with _ = [?x] => set (s := x) in * end.
    assert (Hin : In s (take 5 sorted ++ drop 5 sorted)).
    { rewrite take_drop. apply (Permutation_in _ (Permutation_sym Hperm)).
      apply candidates_In. exists hour. split; [lia|]. rewrite Ht. left. reflexivity. }
    apply in_app_or in Hin. destruct Hin as [Hin|Hin]; [left; exact Hin|right].
    split.
    + rewrite length_take. apply Nat.min_l.
      destruct (Nat.le_gt_cases 5 (length sorted)) as [|Hshort]; [assumption|].
      rewrite drop_ge in Hin by lia. destruct Hin.
    + rewrite Forall_forall. intros s' Hs'.
      apply (StronglySorted_app_1_elem_of _ _ _ _ _ Hsorted Hs').
      apply list_elem_of_In. exact Hin.
Qed.

End Suggestions.

Section SuggestionExamples.

Import TimezoneHandler Spec Samples.

(** New York and London on a winter day: 10:00, 11:00 and 9:00 in New
    York, which London shows as 15:00, 16:00 and 14:00, in that order. *)
Lemma suggestMeetingTimes_ranked_example :
  map (fun s => (timezone1Time s, timezone2Time s, dateTime s))
      (suggestMeetingTimes offsets "UTC" "America/New_York" "Europe/London" defaults)
  = [(600, 900, -540); (660, 960, -480); (540, 840, -600)]
  /\ map (fun s => Qred (score s))
         (suggestMeetingTimes offsets "UTC" "America/New_York" "Europe/London" defaults)
     = [2%Q; 2%Q; (3 # 2)%Q]
  /\ StronglySorted ranksBefore
       (suggestMeetingTimes offsets "UTC" "America/New_York" "Europe/London" defaults).
Proof.
  split; [vm_compute; reflexivity|].
  split; [vm_compute; reflexivity|].
  exact (proj1 (proj2 (proj2
           (suggestMeetingTimes_ranked offsets "UTC" "America/New_York"
              "Europe/London" defaults)))).
Defined.

End SuggestionExamples.

(* ================================================================== *)
(** * The timezone of a command *)
(* ================================================================== *)

Section CommandTimezone.

Import AIProcessor Spec.

(** The character before the cursor once [pre] has been passed. *)
Lemma search_skips {r : re} pre :
  forall p t,
    is_Some (run r (St (from_option Some p (last pre)) t [])
                 (fun s => Some (caps s))) ->
    is_Some (search r p (pre ++ t)).
Proof.
  induction pre as [|c pre IH]; intros p t Hrun.
  - cbn [last from_option app] in *.
    destruct t; cbn [search]; destruct Hrun as [cs ->]; eexists; reflexivity.
  - cbn [app search].
    destruct (run r (St p (c :: pre ++ t) []) _); [eexists; reflexivity|].
    apply IH. destruct pre as [|c' pre]; [exact Hrun|].
    rewrite last_cons_cons in Hrun.
    destruct (last (c' :: pre)) eqn:E; [exact Hrun|].
    apply last_None in E. discriminate.
Qed.






Variable chronoParse : string -> list chronoStart.
Variable systemTimeZone : string.



End CommandTimezone.

Section CommandTimezoneExamples.

Import AIProcessor Spec Samples.


End CommandTimezoneExamples.

(* ================================================================== *)
(** * More on the slot finder *)
(* ================================================================== *)

Section SlotFinderDay.

Import CalendarService Spec.

Lemma scan_past_end endDate busySlots duration fuel currentTime :
  endDate <= currentTime ->
  scan fuel endDate busySlots duration currentTime = [].
Proof.
  intros H. destruct fuel; cbn [scan]; [reflexivity|].
  destruct (Z.ltb_spec currentTime endDate); [lia|reflexivity].
Qed.

Lemma scan_grid endDate busySlots duration fuel :
  forall currentTime s,
    currentTime mod halfHour = 0 ->
    In s (scan fuel endDate busySlots duration currentTime) ->
    start s mod halfHour = 0.
Proof.
  induction fuel as [|fuel IH]; intros currentTime s Hg Hs; cbn [scan] in Hs; [destruct Hs|].
  destruct (currentTime <? endDate); [|destruct Hs].
  destruct (businessHoursEnd <? getHours _).
  - apply IH in Hs; [exact Hs|].
    unfold setHours, nextDate, businessHoursStart, halfHour, msPerDay, msPerHour, msPerMinute.
    replace ((currentTime + 86400000) / 86400000 * 86400000 + 9 * 3600000)
      with (((currentTime + 86400000) / 86400000 * 48 + 18) * (30 * 60000)) by lia.
    apply Z.mod_mul. lia.
  - apply in_app_or in Hs. destruct Hs as [Hs|Hs].
    + destruct (isAvailable _ _ _); [|destruct Hs]. destruct Hs as [<-|[]]. exact Hg.
    + apply IH in Hs; [exact Hs|].
      unfold halfHour in *. rewrite <- Z.add_mod_idemp_l by (unfold msPerMinute; lia).
      rewrite Hg. cbn [Z.add]. apply Z.mod_same. unfold msPerMinute. lia.
Qed.

Lemma setHours_grid h d : setHours h d mod halfHour = 0.
Proof.
  unfold setHours, halfHour, msPerDay, msPerHour, msPerMinute.
  replace (d / 86400000 * 86400000 + h * 3600000)
    with ((d / 86400000 * 48 + h * 2) * (30 * 60000)) by lia.
  apply Z.mod_mul. lia.
Qed.

(** X1.  Whatever the window, the busy intervals and the duration, every
    slot returned starts on a half hour of the clock, not before 09:00 of
    the first day and before the end of the window, lasts exactly the
    duration, ends at an hour of the day that is at most 17 (that is,
    before 18:00), and has no end falling within a busy interval. *)
Theorem findAvailableSlots_sound startDate endDate busySlots duration s :
  In s (findAvailableSlots startDate endDate busySlots duration) ->
  setHours businessHoursStart startDate <= start s < endDate
  /\ start s mod halfHour = 0
  /\ end_ s = start s + duration * msPerMinute
  /\ getHours (end_ s) <= businessHoursEnd
  /\ (forall b, In b busySlots ->
                ~ startsWithin b (start s) /\ ~ endsWithin b (end_ s)).
Proof.
  intros Hs. unfold findAvailableSlots in Hs.
  pose proof (scan_grid _ _ _ _ _ _ (setHours_grid _ _) Hs) as Hg.
  apply scan_sound in Hs. destruct Hs as (Hw & He & Hh & Ha).
  repeat split; try assumption; try lia; apply (proj1 (isAvailable_spec _ _ _) Ha b H).
Qed.

Lemma scan_increasing endDate busySlots duration fuel :
  forall currentTime,
    StronglySorted (fun a b => start a < start b)
                   (scan fuel endDate busySlots duration currentTime).
Proof.
  induction fuel as [|fuel IH]; intros currentTime; cbn [scan]; [constructor|].
  destruct (currentTime <? endDate); [|constructor].
  destruct (businessHoursEnd <? getHours _); [apply IH|].
  apply StronglySorted_app_2; [|destruct (isAvailable _ _ _); repeat constructor|apply IH].
  intros a b Ha Hb. rewrite list_elem_of_In in Ha, Hb.
  destruct (isAvailable _ _ _); [|destruct Ha]. destruct Ha as [<-|[]].
  apply scan_sound in Hb. cbn [start]. unfold msPerMinute in *. lia.
Qed.

(** X2.  The slots are returned in chronological order: the starts of the
    list strictly increase, so that no slot is returned twice. *)
Theorem findAvailableSlots_chronological startDate endDate busySlots duration :
  StronglySorted (fun a b => start a < start b)
                 (findAvailableSlots startDate endDate busySlots duration).
Proof. apply scan_increasing. Qed.

(** The hour of an instant, read within its day. *)
Lemma getHours_in_day q t :
  0 <= t < msPerDay -> getHours (q * msPerDay + t) = t / msPerHour.
Proof.
  intros Ht. unfold getHours, msPerDay, msPerHour in *.
  replace (q * 86400000 + t) with (t + (q * 24) * 3600000) by lia.
  rewrite Z.div_add by lia.
  rewrite Z.add_mod by lia. rewrite Z.mod_mul by lia. rewrite Z.add_0_r.
  rewrite Z.mod_mod by lia. apply Z.mod_small.
  split; [apply Z.div_pos; lia|apply Z.div_lt_upper_bound; lia].
Qed.

(** The scan of the rest of one day, from a time after 09:00 at which the
    candidate still ends within the day. *)
Lemma scan_one_day q busySlots duration fuel :
  let day := q * msPerDay in
  let endDate := day + (msPerDay - 1) in
  forall currentTime s,
    0 <= duration ->
    day + 9 * msPerHour <= currentTime ->
    currentTime + duration * msPerMinute < day + msPerDay ->
    (iterations endDate currentTime <= fuel)%nat ->
    In s (scan fuel endDate busySlots duration currentTime) <->
    exists k, 0 <= k
              /\ start s = currentTime + k * halfHour
              /\ end_ s = start s + duration * msPerMinute
              /\ end_ s < day + 18 * msPerHour
              /\ isAvailable (start s) (end_ s) busySlots = true.
Proof.
  cbv zeta. induction fuel as [|fuel IH]; intros currentTime s Hd Hlo Hhi Hfuel.
  - assert (Hend : q * msPerDay + (msPerDay - 1) <= currentTime).
    { destruct (Z_lt_le_dec currentTime (q * msPerDay + (msPerDay - 1))) as [Hlt|]; [|assumption].
      pose proof (iterations_step _ currentTime _ Hlt (Z.le_refl _)). lia. }
    cbn [scan]. split; [intros []|].
    intros (k & Hk & Hs & He & H18 & _).
    unfold halfHour, msPerDay, msPerHour, msPerMinute in *. nia.
  - cbn [scan].
    destruct (Z.ltb_spec currentTime (q * msPerDay + (msPerDay - 1))) as [Hlt|Hge].
    + assert (Hhour : getHours (currentTime + duration * msPerMinute)
                      = (currentTime + duration * msPerMinute - q * msPerDay) / msPerHour).
      { rewrite <- (getHours_in_day q)
          by (unfold msPerDay, msPerHour, msPerMinute in *; lia).
        f_equal. lia. }
      rewrite Hhour.
      destruct (Z.ltb_spec businessHoursEnd
                  ((currentTime + duration * msPerMinute - q * msPerDay) / msPerHour))
        as [Hjump|Hstay].
      * rewrite scan_past_end.
        2:{ unfold setHours, nextDate, businessHoursStart.
            pose proof (Z.mod_pos_bound (currentTime + msPerDay) msPerDay eq_refl).
            pose proof (Z.div_mod (currentTime + msPerDay) msPerDay ltac:(discriminate)).
            unfold msPerDay, msPerHour in *. lia. }
        split; [intros []|].
        intros (k & Hk & Hs & He & H18 & _).
        assert ((currentTime + duration * msPerMinute - q * msPerDay) / msPerHour < 18).
        { apply Z.div_lt_upper_bound; [reflexivity|].
          unfold halfHour, msPerDay, msPerHour, msPerMinute in *. nia. }
        unfold businessHoursEnd in Hjump. lia.
      * assert (H18 : currentTime + duration * msPerMinute < q * msPerDay + 18 * msPerHour).
        { unfold businessHoursEnd in Hstay.
          assert (Hq : (currentTime + duration * msPerMinute - q * msPerDay) / msPerHour < 18)
            by lia.
          destruct (Z_lt_le_dec (currentTime + duration * msPerMinute - q * msPerDay)
                                (msPerHour * 18)) as [|Hle]; [unfold msPerHour in *; lia|].
          apply Z.div_le_lower_bound in Hle; [lia|reflexivity]. }
        pose proof (iterations_step _ currentTime _ Hlt (Z.le_refl _)) as Hstep.
        rewrite in_app_iff.
        rewrite (IH (currentTime + 30 * msPerMinute) s Hd)
          by (unfold msPerDay, msPerHour, msPerMinute in *; lia).
        split.
        -- intros [Hs|(k & Hk & Hs & He & Hb & Ha)].
           ++ destruct (isAvailable currentTime _ busySlots) eqn:Hav; [|destruct Hs].
              destruct Hs as [<-|[]]. exists 0. cbn [start end_].
              repeat split; try lia; assumption.
           ++ exists (k + 1). unfold halfHour in *. repeat split; try lia; assumption.
        -- intros (k & Hk & Hs & He & Hb & Ha).
           destruct (Z.eq_dec k 0) as [->|Hk0].
           ++ left. destruct s as [s0 s1]. cbn [start end_] in *.
              rewrite Z.mul_0_l, Z.add_0_r in Hs. subst s0 s1.
              rewrite Ha. left. reflexivity.
           ++ right. exists (k - 1). unfold halfHour in *. repeat split; try lia; assumption.
    + split; [intros []|].
      intros (k & Hk & Hs & He & H18 & _).
      unfold halfHour, msPerDay, msPerHour, msPerMinute in *. nia.
Qed.

Lemma endOfDate_day d : endOfDate d = d / msPerDay * msPerDay + (msPerDay - 1).
Proof. unfold endOfDate, msPerDay, msPerHour, msPerMinute. lia. Qed.

Lemma setHours_of_day h q : setHours h (q * msPerDay) = q * msPerDay + h * msPerHour.
Proof. unfold setHours. rewrite Z.div_mul by discriminate. reflexivity. Qed.

Variable freeBusy : Z -> Z -> outcome (list busy).

(** X3.  The availability of one day, for a duration from 0 to under 15
    hours and a free/busy request that went through: the slots are exactly
    the candidates that start on a half hour from 09:00 of that day, end
    before 18:00 of that day and pass the overlap test. *)
Theorem checkAvailability_day date duration busySlots s :
  0 <= duration < 900 ->
  freeBusy (setHours 0 date) (endOfDate date) = Ret busySlots ->
  let day := date / msPerDay * msPerDay in
  In s (checkAvailability freeBusy date duration) <->
  exists k, 0 <= k
            /\ start s = day + 9 * msPerHour + k * halfHour
            /\ end_ s = start s + duration * msPerMinute
            /\ end_ s < day + 18 * msPerHour
            /\ isAvailable (start s) (end_ s) busySlots = true.
Proof.
  intros Hd Hreply. cbv zeta. unfold checkAvailability. rewrite Hreply. cbn.
  unfold findAvailableSlots.
  replace (setHours 0 date) with (date / msPerDay * msPerDay)
    by (unfold setHours; lia).
  rewrite setHours_of_day, endOfDate_day.
  apply (scan_one_day (date / msPerDay) busySlots duration); try lia.
  unfold businessHoursStart, msPerDay, msPerHour, msPerMinute. lia.
  unfold businessHoursStart, msPerDay, msPerHour, msPerMinute. lia.
Qed.

End SlotFinderDay.

(* ================================================================== *)
(** * More on the timezone resolver *)
(* ================================================================== *)

Section ResolverCase.

Import TimezoneHandler Spec.

Lemma toLower_idempotent c : toLower (toLower c) = toLower c.
Proof. destruct c as [[] [] [] [] [] [] [] []]; vm_compute; reflexivity. Qed.

Lemma isWord_toLower c : isWord (toLower c) = isWord c.
Proof. destruct c as [[] [] [] [] [] [] [] []]; vm_compute; reflexivity. Qed.

Lemma chr_ci_toLower c x : chr_ci c (toLower x) = chr_ci c x.
Proof. unfold chr_ci. rewrite toLower_idempotent. reflexivity. Qed.

Lemma wordAt_head_toLower l : wordAt (head (map toLower l)) = wordAt (head l).
Proof. destruct l; cbn; [reflexivity|apply isWord_toLower]. Qed.

Lemma is_Some_first {A} (o1 o2 : option A) :
  is_Some (match o1 with Some a => Some a | None => o2 end) <-> is_Some o1 \/ is_Some o2.
Proof.
  destruct o1; split; intros H.
  - left. eexists; reflexivity.
  - eexists; reflexivity.
  - right. exact H.
  - destruct H as [[? [=]]|H]. exact H.
Qed.

(** The matcher cannot tell two texts that differ in case apart, as far as
    a case-blind pattern goes: it finds a match in both or in none. *)
Lemma run_caseBlind r :
  caseBlind r ->
  forall A B (k : st -> option A) (k' : st -> option B) s s',
    sameUpToCase s s' ->
    (forall t t', sameUpToCase t t' -> (is_Some (k t) <-> is_Some (k' t'))) ->
    (is_Some (run r s k) <-> is_Some (run r s' k')).
Proof.
  induction 1 as [|p Hp|r1 r2 _ IH1 _ IH2|r1 r2 _ IH1 _ IH2|r _ IH| |n r _ IH];
    intros A B k k' s s' Hs Hk.
  - cbn [run]. apply Hk, Hs.
  - cbn [run]. destruct Hs as [Hrest Hprev]. rewrite Hrest.
    destruct (rest s) as [|c t]; cbn [map]; [split; intros [? [=]]|].
    rewrite Hp. destruct (p c); [|split; intros [? [=]]].
    apply Hk. split; cbn; [reflexivity|apply isWord_toLower].
  - cbn [run]. apply IH1; [exact Hs|]. intros t t' Ht. apply IH2; assumption.
  - cbn [run]. rewrite !is_Some_first.
    rewrite (IH1 A B k k' s s' Hs Hk), (IH2 A B k k' s s' Hs Hk). reflexivity.
  - cbn [run].
    assert (Hlen : length (rest s') = length (rest s))
      by (destruct Hs as [-> _]; apply length_map).
    rewrite Hlen. generalize (length (rest s)) as fuel.
    clear Hlen. revert s s' Hs.
    intros s s' Hs fuel. revert s s' Hs.
    induction fuel as [|fuel IHf]; intros s s' Hs.
    + apply Hk, Hs.
    + rewrite !is_Some_first. rewrite (Hk s s' Hs).
      assert (Hstep :
        is_Some (run r s (fun s1 =>
                   if (length (rest s1) <? length (rest s))%nat
                   then (fix iter (fuel : nat) (s : st) {struct fuel} : option A :=
                           match fuel with
                           | O => k s
                           | S f =>
                               match run r s (fun s' =>
                                       if (length (rest s') <? length (rest s))%nat
                                       then iter f s' else None) with
                               | Some a => Some a
                               | None => k s
                               end
                           end) fuel s1
                   else None))
        <-> is_Some (run r s' (fun s1 =>
                   if (length (rest s1) <? length (rest s'))%nat
                   then (fix iter (fuel : nat) (s : st) {struct fuel} : option B :=
                           match fuel with
                           | O => k' s
                           | S f =>
                               match run r s (fun s' =>
                                       if (length (rest s') <? length (rest s))%nat
                                       then iter f s' else None) with
                               | Some a => Some a
                               | None => k' s
                               end
                           end) fuel s1
                   else None))).
      { apply IH; [exact Hs|]. intros t t' Ht.
        assert (length (rest t') = length (rest t))
          by (destruct Ht as [-> _]; apply length_map).
        assert (length (rest s') = length (rest s))
          by (destruct Hs as [-> _]; apply length_map).
        replace (length (rest t')) with (length (rest t)) by congruence.
        replace (length (rest s')) with (length (rest s)) by congruence.
        destruct (length (rest t) <? length (rest s))%nat; [|split; intros [? [=]]].
        apply IHf, Ht. }
      rewrite Hstep. reflexivity.
  - cbn [run]. destruct Hs as [Hrest Hprev].
    rewrite Hrest, Hprev, wordAt_head_toLower.
    destruct (xorb _ _); [|split; intros [? [=]]].
    apply Hk. split; assumption.
  - cbn [run]. apply IH; [exact Hs|]. intros t t' Ht. apply Hk.
    destruct Ht as [Hrest Hprev]. split; cbn; assumption.
Qed.

Lemma search_caseBlind r :
  caseBlind r ->
  forall t p p',
    wordAt p' = wordAt p ->
    (is_Some (search r p t) <-> is_Some (search r p' (map toLower t))).
Proof.
  intros Hr. induction t as [|c t IH]; intros p p' Hp.
  - cbn [search map]. rewrite !is_Some_first.
    rewrite (run_caseBlind r Hr _ _ (fun s => Some (caps s)) (fun s => Some (caps s))
               (St p [] []) (St p' [] [])).
    + reflexivity.
    + split; [reflexivity|exact Hp].
    + intros; split; intros; eexists; reflexivity.
  - cbn [search map]. rewrite !is_Some_first.
    rewrite (run_caseBlind r Hr _ _ (fun s => Some (caps s)) (fun s => Some (caps s))
               (St p (c :: t) []) (St p' (toLower c :: map toLower t) [])).
    + rewrite (IH (Some c) (Some (toLower c))); [reflexivity|]. apply isWord_toLower.
    + split; [reflexivity|exact Hp].
    + intros; split; intros; eexists; reflexivity.
Qed.

Lemma list_ascii_toLowerCase text :
  list_ascii_of_string (toLowerCase text) = map toLower (list_ascii_of_string text).
Proof. induction text as [|c text IH]; cbn; [reflexivity|]. rewrite IH. reflexivity. Qed.

Lemma test_caseBlind r text :
  caseBlind r -> test r (toLowerCase text) = test r text.
Proof.
  intros Hr. unfold test, exec. rewrite list_ascii_toLowerCase.
  pose proof (search_caseBlind r Hr (list_ascii_of_string text) None None eq_refl) as H.
  destruct (search r None (list_ascii_of_string text)) as [m|];
    destruct (search r None (map toLower (list_ascii_of_string text))) as [m'|];
    try reflexivity.
  - destruct (proj1 H (ex_intro _ m eq_refl)) as [? [=]].
  - destruct (proj2 H (ex_intro _ m' eq_refl)) as [? [=]].
Qed.

Lemma lit_ci_caseBlind w : caseBlind (lit_ci w).
Proof.
  induction w as [|c w IH]; cbn [lit_ci]; constructor; [|exact IH].
  constructor. intros x. apply chr_ci_toLower.
Qed.

Lemma timezonePatterns_caseBlind :
  Forall (fun pz => caseBlind (fst pz)) timezonePatterns.
Proof.
  unfold timezonePatterns, wordOf, place, placeOr.
  repeat (constructor;
          [cbn [fst map alts]; repeat (apply lit_ci_caseBlind || constructor)|]).
  constructor.
Qed.

Lemma firstMatch_caseBlind ps text :
  Forall (fun pz => caseBlind (fst pz)) ps ->
  firstMatch ps (toLowerCase text) = firstMatch ps text.
Proof.
  induction 1 as [|[p z] ps Hp _ IH]; cbn [firstMatch]; [reflexivity|].
  rewrite (test_caseBlind p text Hp), IH. reflexivity.
Qed.

(** X4.  The resolver ignores the case of the letters: two texts with the
    same lower-case form resolve to the same zone, or both to nothing. *)
Theorem parseTimezoneFromText_ignores_case text1 text2 :
  toLowerCase text1 = toLowerCase text2 ->
  parseTimezoneFromText text1 = parseTimezoneFromText text2.
Proof.
  intros H. unfold parseTimezoneFromText.
  rewrite <- (firstMatch_caseBlind _ text1 timezonePatterns_caseBlind).
  rewrite <- (firstMatch_caseBlind _ text2 timezonePatterns_caseBlind).
  rewrite H. reflexivity.
Qed.

End ResolverCase.

(* ================================================================== *)
(** * The two abbreviation tables *)
(* ================================================================== *)

Section Abbreviations.

Import AIProcessor TimezoneHandler.

(** X5.  Wherever the abbreviation table of the command parser gives a
    zone, the resolver of free texts gives the same zone for that
    abbreviation, but for CEST and AEDT: the table sends them to
    Europe/Paris and Australia/Sydney, and the resolver returns nothing
    for them. *)
Theorem timezoneMap_agrees_with_resolver abbr tz :
  assoc abbr timezoneMap = Some tz ->
  (abbr <> "CEST" -> abbr <> "AEDT" -> parseTimezoneFromText abbr = Some tz)
  /\ (abbr = "CEST" \/ abbr = "AEDT" -> parseTimezoneFromText abbr = None)
  /\ assoc "CEST" timezoneMap = Some "Europe/Paris"
  /\ assoc "AEDT" timezoneMap = Some "Australia/Sydney".
Proof.
  intros H. split; [|split; [|split; reflexivity]].
  - intros Hc Ha. revert H. unfold timezoneMap. cbn [assoc]. intros H.
    repeat match type of H with
           | (if String.eqb ?k abbr then _ else _) = _ =>
               destruct (String.eqb_spec k abbr) as [<-|_];
               [first [contradiction Hc; reflexivity
                      |contradiction Ha; reflexivity
                      |injection H as <-; vm_compute; reflexivity]|]
           end.
    discriminate.
  - intros [->| ->]; vm_compute; reflexivity.
Qed.

End Abbreviations.

(* ================================================================== *)
(** * More on the local parse *)
(* ================================================================== *)

Section LocalParse.

Import AIProcessor BackgroundService Spec.

(** A literal matches where it stands. *)
Lemma run_lit {A} w : forall p post cs (k : st -> option A),
  run (lit w) (St p (list_ascii_of_string w ++ post) cs) k
  = k (St (from_option Some p (last (list_ascii_of_string w))) post cs).
Proof.
  induction w as [|c w IH]; intros p post cs k; cbn [lit run list_ascii_of_string app rest].
  - reflexivity.
  - unfold chr_eq at 1. rewrite Nat.eqb_refl. unfold advance. cbn [caps].
    rewrite IH. f_equal. f_equal.
    destruct (list_ascii_of_string w) as [|c' l]; [reflexivity|].
    rewrite last_cons_cons. destruct (last (c' :: l)) eqn:E; [reflexivity|].
    apply last_None in E. discriminate.
Qed.

Lemma list_ascii_app s1 s2 :
  list_ascii_of_string (s1 +:+ s2) = list_ascii_of_string s1 ++ list_ascii_of_string s2.
Proof.
  induction s1 as [|c s1 IH]; simpl; [reflexivity|].
  f_equal. exact IH.
Qed.

(** [includes] finds every part of a text. *)
Lemma includes_part pre w post : includes (pre +:+ w +:+ post) w = true.
Proof.
  unfold includes, test, exec. rewrite !list_ascii_app.
  destruct (search_skips (r := lit w) (list_ascii_of_string pre) None
              (list_ascii_of_string w ++ list_ascii_of_string post)) as [m ->];
    [|reflexivity].
  rewrite run_lit. eexists; reflexivity.
Qed.

Variable chronoParse : string -> list chronoStart.
Variable systemTimeZone : string.

(** Case analysis on everything that [localParse] looks at. *)
Ltac parse_cases :=
  match goal with
  | |- context [localParse _ _ ?cmd ?ctx] =>
      unfold localParse;
      destruct (chronoParse cmd) as [|firstDate ?];
      [|destruct (isCertainHour firstDate)];
      destruct (extractDuration durationPatterns cmd);
      destruct (extractPlatform platformKeywords (toLowerCase cmd));
      destruct (exec timezoneToken cmd);
      destruct (truthy (getPropOpt (getPropOpt ctx "participantInfo") "name"));
      destruct (truthy (getPropOpt (getPropOpt ctx "participantInfo") "email"));
      cbn [setIf setSome fmap option_fmap option_map]
  end.

Lemma localParse_platform command context :
  getProp (localParse chronoParse systemTimeZone command context) "platform"
  = Ret (match extractPlatform platformKeywords (toLowerCase command) with
         | Some platform => VStr platform
         | None => VNull
         end).
Proof.
  parse_cases; cbn [getProp];
    rewrite ?lookup_insert_ne by done; rewrite ?lookup_insert_eq; reflexivity.
Qed.

(** X6.  The platform of a local parse is absent or one of google-meet,
    zoom and teams, whatever the command. *)
Theorem localParse_platform_closed command context :
  let platform :=
    getProp (localParse chronoParse systemTimeZone command context) "platform" in
  platform = Ret VNull \/ platform = Ret (VStr "google-meet")
  \/ platform = Ret (VStr "zoom") \/ platform = Ret (VStr "teams").
Proof.
  cbv zeta. rewrite localParse_platform.
  unfold platformKeywords. cbn [extractPlatform].
  repeat (destruct (existsb _ _); [tauto|]). tauto.
Qed.

(** X7.  A command in which the letters "meet" occur, in any case, gets
    the platform google-meet, also when it names Zoom or Teams: the
    keywords of google-meet are tried first and "meet" is one of them. *)
Theorem localParse_meet_is_google_meet command context pre post :
  toLowerCase command = (pre +:+ "meet" +:+ post)%string ->
  getProp (localParse chronoParse systemTimeZone command context) "platform"
  = Ret (VStr "google-meet").
Proof.
  intros H. rewrite localParse_platform. rewrite H.
  unfold platformKeywords. cbn [extractPlatform existsb].
  rewrite (includes_part pre "meet" post), !orb_true_r. reflexivity.
Qed.

(** The fields of a local parse. *)
Lemma localParse_fields command context :
  let parsed := ownProps (localParse chronoParse systemTimeZone command context) in
  localParse chronoParse systemTimeZone command context = VObj parsed
  /\ dom parsed = dom emptyParse
  /\ (forall k, k ∈ dom emptyParse <->
                In k ["participantName"; "email"; "date"; "time"; "timezone";
                      "duration"; "platform"])
  /\ parsed !! "participantName"
     = Some (let name := getPropOpt (getPropOpt context "participantInfo") "name" in
             if truthy name then name else VNull)
  /\ parsed !! "email"
     = Some (let email := getPropOpt (getPropOpt context "participantInfo") "email" in
             if truthy email then email else VNull).
Proof.
  cbv zeta. split; [reflexivity|]. split; [|split; [|split]].
  - assert (Hin : forall k v (o : gmap string jsval),
               dom o = dom emptyParse -> k ∈ dom emptyParse ->
               dom (<[k := v]> o) = dom emptyParse).
    { intros k v o Ho Hk. rewrite dom_insert_L, Ho. apply set_eq. intros x.
      rewrite elem_of_union, elem_of_singleton. split; [intros [->|]; assumption|auto]. }
    assert (Hkeys : Forall (fun k => k ∈ dom emptyParse)
                      ["participantName"; "email"; "date"; "time"; "timezone";
                       "duration"; "platform"]).
    { unfold emptyParse. rewrite !dom_insert_L. repeat constructor; set_solver. }
    repeat match goal with
           | H : Forall _ (_ :: _) |- _ => apply Forall_cons in H; destruct H
           end.
    parse_cases; cbn [ownProps];
      repeat match goal with
             | |- dom (<[_ := _]> _) = _ => apply Hin; [|assumption]
             end;
      reflexivity.
  - intros k. unfold emptyParse. rewrite !dom_insert, dom_empty.
    rewrite !elem_of_union, !elem_of_singleton, elem_of_empty. cbn [In].
    intuition.
  - parse_cases; cbn [ownProps];
      rewrite ?lookup_insert_ne by done; rewrite ?lookup_insert_eq; reflexivity.
  - parse_cases; cbn [ownProps];
      rewrite ?lookup_insert_ne by done; rewrite ?lookup_insert_eq; reflexivity.
Qed.

(** X8.  A local parse is an object with the same seven fields whatever
    the command and the context; its participant name and its email are
    those of the participant of the context when these are not empty, and
    null otherwise. *)
Theorem localParse_shape command context :
  let parsed := ownProps (localParse chronoParse systemTimeZone command context) in
  localParse chronoParse systemTimeZone command context = VObj parsed
  /\ dom parsed = dom emptyParse
  /\ (forall k, k ∈ dom emptyParse <->
                In k ["participantName"; "email"; "date"; "time"; "timezone";
                      "duration"; "platform"])
  /\ parsed !! "participantName"
     = Some (let name := getPropOpt (getPropOpt context "participantInfo") "name" in
             if truthy name then name else VNull)
  /\ parsed !! "email"
     = Some (let email := getPropOpt (getPropOpt context "participantInfo") "email" in
             if truthy email then email else VNull).
Proof. exact (localParse_fields command context). Qed.

Lemma localParse_no_date command context :
  chronoParse command = [] ->
  let parsed := ownProps (localParse chronoParse systemTimeZone command context) in
  parsed !! "date" = Some VNull /\ parsed !! "time" = Some VNull.
Proof.
  intros Hc. cbv zeta. unfold localParse. rewrite Hc. cbn [ownProps].
  destruct (extractDuration durationPatterns command);
    destruct (extractPlatform platformKeywords (toLowerCase command));
    destruct (exec timezoneToken command);
    destruct (truthy (getPropOpt (getPropOpt context "participantInfo") "name"));
    destruct (truthy (getPropOpt (getPropOpt context "participantInfo") "email"));
    cbn [setIf setSome fmap option_fmap option_map];
    rewrite ?lookup_insert_ne by done; split; reflexivity.
Qed.

(** X9.  The validator on a local parse, with the same context, returns a
    result, in which the email is missing exactly when the context has
    none; and for a command in which the date parser finds nothing, the
    date and the time are missing, after the email when that is missing
    too, and the request is not valid. *)
Theorem validateMeetingData_localParse command context :
  exists v,
    validateMeetingData (localParse chronoParse systemTimeZone command context) context
    = Ret v
    /\ (In "email" (missing v) <->
        truthy (getPropOpt (getPropOpt context "participantInfo") "email") = false)
    /\ (chronoParse command = [] ->
        isValid v = false
        /\ missing v
           = (if truthy (getPropOpt (getPropOpt context "participantInfo") "email")
              then [] else ["email"]) ++ ["date"; "time"]).
Proof.
  destruct (localParse_fields command context) as (Hobj & _ & _ & _ & Hemail).
  pose proof (localParse_no_date command context) as Hdate.
  cbv zeta in Hemail, Hdate.
  rewrite Hobj. set (parsed := ownProps _) in *. clearbody parsed.
  assert (Ht : truthy (default VUndefined (parsed !! "email"))
               = truthy (getPropOpt (getPropOpt context "participantInfo") "email")).
  { rewrite Hemail. cbn [default].
    destruct (truthy (getPropOpt (getPropOpt context "participantInfo") "email")) eqn:E;
      [exact E|reflexivity]. }
  unfold validateMeetingData. cbn [getProp mbind outcome_bind JS.bind].
  eexists. split; [reflexivity|]. cbn [missing isValid]. rewrite Ht.
  split.
  - destruct (truthy (getPropOpt (getPropOpt context "participantInfo") "email"));
      destruct (truthy (default VUndefined (parsed !! "date")));
      destruct (truthy (default VUndefined (parsed !! "time")));
      cbn; intuition congruence.
  - intros Hc. destruct (Hdate Hc) as [-> ->]. cbn [default truthy negb].
    destruct (truthy (getPropOpt (getPropOpt context "participantInfo") "email"));
      cbn; split; reflexivity.
Qed.

End LocalParse.

(* ================================================================== *)
(** * More on the refiner and the validator *)
(* ================================================================== *)

Section Pipeline.

Import AIProcessor BackgroundService.

Variable chronoParse : string -> list chronoStart.
Variable systemTimeZone : string.
Variable remote : string -> jsval -> jsval -> outcome response.
Variable JSON_parse : jsval -> outcome jsval.

(** The refiner on an object returns an object. *)
Lemma aiEnhancedParse_object command context (localParse : gmap string jsval) :
  exists refined : gmap string jsval,
    aiEnhancedParse remote JSON_parse command context (VObj localParse) = VObj refined
    /\ forall k, k = "participantName" \/ k = "email" ->
         refined !! k = localParse !! k
         \/ exists v, refined !! k = Some v
                      /\ (truthy v = true
                          \/ v = default VUndefined (localParse !! k)).
Proof.
  unfold aiEnhancedParse.
  destruct (remote command context (VObj localParse)) as [r|e];
    cbn [mbind outcome_bind JS.bind try_catch];
    [|exists localParse; split; [reflexivity|auto]].
  destruct (ok r); cbn [mbind outcome_bind JS.bind try_catch negb];
    [|exists localParse; split; [reflexivity|auto]].
  destruct (json r) as [data|e]; cbn [mbind outcome_bind JS.bind try_catch];
    [|exists localParse; split; [reflexivity|auto]].
  destruct (messageContent data) as [content|e];
    cbn [mbind outcome_bind JS.bind try_catch];
    [|exists localParse; split; [reflexivity|auto]].
  destruct (JSON_parse content) as [aiParsed|e];
    cbn [mbind outcome_bind JS.bind try_catch];
    [|exists localParse; split; [reflexivity|auto]].
  unfold mergeParses, propOr.
  destruct (getProp aiParsed "participantName") as [name|e];
    cbn [mbind outcome_bind JS.bind try_catch];
    [|exists localParse; split; [reflexivity|auto]].
  destruct (truthy name) eqn:Htn; cbn [getProp mbind outcome_bind JS.bind try_catch];
    (destruct (getProp aiParsed "email") as [email|e];
     cbn [mbind outcome_bind JS.bind try_catch];
     [|exists localParse; split; [reflexivity|auto]]);
    destruct (truthy email) eqn:Hte; cbn [getProp mbind outcome_bind JS.bind try_catch];
    (eexists; split; [reflexivity|]);
    intros k [-> | ->];
    rewrite ?lookup_insert_eq; rewrite ?lookup_insert_ne by done;
    rewrite ?lookup_insert_eq; right; eexists; (split; [reflexivity|]); auto.
Qed.

(** X10.  Whatever the remote call does, the refiner does not lose the
    participant name or the email of the local parse: when the local parse
    has one (not empty), so has the result. *)
Theorem aiEnhancedParse_keeps_identity command context
        (localParse : gmap string jsval) k :
  k = "participantName" \/ k = "email" ->
  truthy (default VUndefined (localParse !! k)) = true ->
  truthy (getPropOpt
            (aiEnhancedParse remote JSON_parse command context (VObj localParse)) k)
  = true.
Proof.
  intros Hk Hlocal.
  destruct (aiEnhancedParse_object command context localParse) as (refined & -> & Hr).
  cbn [getPropOpt]. destruct (Hr k Hk) as [->|(v & -> & [Hv| ->])]; assumption.
Qed.

(** X11.  The parse that the background service hands to the validator is
    always an object, with or without a credential and whatever the remote
    call does, so that the validator returns a result for it; without a
    credential it is the local parse. *)
Theorem validateMeetingData_after_parse apiKey command context :
  (exists v,
      validateMeetingData
        (parseSchedulingRequest chronoParse systemTimeZone remote JSON_parse
           apiKey command context) context = Ret v)
  /\ (truthy apiKey = false ->
      parseSchedulingRequest chronoParse systemTimeZone remote JSON_parse
        apiKey command context
      = localParse chronoParse systemTimeZone command context).
Proof.
  unfold parseSchedulingRequest. split.
  - assert (Hobj : exists o, localParse chronoParse systemTimeZone command context = VObj o)
      by (eexists; reflexivity).
    destruct Hobj as [o Ho]. rewrite Ho.
    destruct (truthy apiKey).
    + destruct (aiEnhancedParse_object command context o) as (refined & -> & _).
      eexists. reflexivity.
    + eexists. reflexivity.
  - intros ->. reflexivity.
Qed.

(** X12.  The validator throws exactly when the parsed request is [null]
    or [undefined]; every other value, and every context, gives a
    result. *)
Theorem validateMeetingData_throws_iff parsedData context :
  (exists e, validateMeetingData parsedData context = Throw e)
  <-> parsedData = VNull \/ parsedData = VUndefined.
Proof.
  split.
  - intros [e H]. destruct parsedData; cbn in H; try discriminate; auto.
  - intros [-> | ->]; eexists; reflexivity.
Qed.

End Pipeline.

Section MeetingDetails.

Import BackgroundService.

Variable settings : jsval.
Variable parseDateAndTime : jsval -> jsval -> jsval -> outcome jsval.
Variable generateMeetingMessage : jsval -> jsval.

Lemma truthy_or_else a b : truthy b = true -> truthy (or_else a b) = true.
Proof. intros H. unfold or_else. destruct (truthy a) eqn:E; assumption. Qed.

Lemma getProp_getPropOpt v k x : getProp v k = Ret x -> getPropOpt v k = x.
Proof. destruct v; cbn; congruence. Qed.

(** The value kept by [parsed || settings.k || fallback] when the read of
    the settings, made only if the parsed value is empty, succeeds. *)
Lemma or_settings_firstTruthy parsed k chosen fallback :
  (if truthy parsed then Ret parsed else getProp settings k) = Ret chosen ->
  or_else chosen fallback = Spec.firstTruthy [parsed; getPropOpt settings k] fallback.
Proof.
  intros H. unfold or_else. cbn [Spec.firstTruthy].
  destruct (truthy parsed) eqn:Hp.
  - injection H as <-. rewrite Hp. reflexivity.
  - apply getProp_getPropOpt in H. rewrite H. reflexivity.
Qed.

(** X13.  Whenever the meeting details are produced, their participant
    name, duration and platform are never empty.  The name is the parsed
    one, else the one of the context, else "Unknown"; the duration is the
    parsed one, else the default of the settings, else 30; the platform
    is the parsed one, else the default of the settings, else
    "google-meet"; the email is the parsed one, else the one of the
    context, else the empty text; "else" is taken when the value before
    it is empty. *)
Theorem generateMeetingDetails_defaults parsedData context details :
  generateMeetingDetails settings parseDateAndTime generateMeetingMessage
    parsedData context = Ret details ->
  let info := getPropOpt context "participantInfo" in
  exists name email duration platform,
    getProp details "participantName" = Ret name
    /\ getProp details "email" = Ret email
    /\ getProp details "duration" = Ret duration
    /\ getProp details "platform" = Ret platform
    /\ truthy name = true /\ truthy duration = true /\ truthy platform = true
    /\ name = Spec.firstTruthy [getPropOpt parsedData "participantName";
                                getPropOpt info "name"] (VStr "Unknown")
    /\ duration = Spec.firstTruthy [getPropOpt parsedData "duration";
                                    getPropOpt settings "defaultDuration"] (VNum 30)
    /\ platform = Spec.firstTruthy [getPropOpt parsedData "platform";
                                    getPropOpt settings "defaultPlatform"]
                                   (VStr "google-meet")
    /\ email = Spec.firstTruthy [getPropOpt parsedData "email";
                                 getPropOpt info "email"] (VStr "").
Proof.
  unfold generateMeetingDetails. intros H. cbv zeta.
  destruct (getProp parsedData "participantName") as [parsedName|] eqn:Hname;
    cbn in H; [|discriminate].
  destruct (getProp parsedData "email") as [parsedEmail|] eqn:Hemail;
    cbn in H; [|discriminate].
  destruct (getProp parsedData "date") as [dateStr|]; cbn in H; [|discriminate].
  destruct (getProp parsedData "time") as [timeStr|]; cbn in H; [|discriminate].
  destruct (getProp parsedData "timezone") as [parsedTimezone|]; cbn in H; [|discriminate].
  destruct (if truthy parsedTimezone then _ else _) as [defaultTimezone|];
    cbn in H; [|discriminate].
  destruct (parseDateAndTime dateStr timeStr defaultTimezone) as [dateTime|];
    cbn in H; [|discriminate].
  destruct (getProp parsedData "duration") as [parsedDuration|] eqn:Hduration;
    cbn in H; [|discriminate].
  destruct (if truthy parsedDuration then _ else _) as [defaultDuration|] eqn:Hdd;
    cbn in H; [|discriminate].
  destruct (getProp parsedData "platform") as [parsedPlatform|] eqn:Hplatform;
    cbn in H; [|discriminate].
  destruct (if truthy parsedPlatform then _ else _) as [defaultPlatform|] eqn:Hdp;
    cbn in H; [|discriminate].
  destruct (getProp dateTime "dateFormatted"); cbn in H; [|discriminate].
  destruct (getProp dateTime "timeFormatted"); cbn in H; [|discriminate].
  destruct (getProp dateTime "timezone"); cbn in H; [|discriminate].
  destruct (getProp dateTime "date"); cbn in H; [|discriminate].
  destruct (getProp dateTime "time"); cbn in H; [|discriminate].
  injection H as <-. cbn [getProp].
  apply getProp_getPropOpt in Hname, Hemail, Hduration, Hplatform.
  rewrite Hname, Hemail, Hduration, Hplatform.
  do 4 eexists.
  rewrite ?lookup_insert_ne by done. rewrite !lookup_insert_eq. cbn [default].
  repeat (rewrite lookup_insert_ne by done). rewrite !lookup_insert_eq.
  repeat (split; [reflexivity|]).
  split; [apply truthy_or_else; reflexivity|].
  split; [apply truthy_or_else; reflexivity|].
  split; [apply truthy_or_else; reflexivity|].
  split; [|split; [|split]].
  - unfold or_else. cbn [Spec.firstTruthy].
    destruct (truthy parsedName) eqn:Hp; [rewrite Hp; reflexivity|].
    destruct (truthy _); reflexivity.
  - apply or_settings_firstTruthy. exact Hdd.
  - apply or_settings_firstTruthy. exact Hdp.
  - unfold or_else. cbn [Spec.firstTruthy].
    destruct (truthy parsedEmail) eqn:Hp; [rewrite Hp; reflexivity|].
    destruct (truthy _); reflexivity.
Qed.

End MeetingDetails.

(* ================================================================== *)
(** * More on the timezone handler *)
(* ================================================================== *)

Section Scores.

Import TimezoneHandler Spec.

(** X14.  The score of a pair of hours does not depend on the order of the
    two hours, lies between 0 and 2, and is 2 exactly when both hours are
    in the ideal window from 10 to 16. *)
Theorem calculateTimeScore_range hour1 hour2 :
  (calculateTimeScore hour1 hour2 == calculateTimeScore hour2 hour1)%Q
  /\ (0 <= calculateTimeScore hour1 hour2 <= 2)%Q
  /\ ((calculateTimeScore hour1 hour2 == 2)%Q <->
      10 <= hour1 <= 16 /\ 10 <= hour2 <= 16).
Proof.
  unfold calculateTimeScore. cbv zeta.
  destruct (Z.leb_spec 10 hour1), (Z.leb_spec hour1 16),
           (Z.ltb_spec hour1 9), (Z.ltb_spec 17 hour1); try lia;
    destruct (Z.leb_spec 10 hour2), (Z.leb_spec hour2 16),
             (Z.ltb_spec hour2 9), (Z.ltb_spec 17 hour2); try lia;
    cbn [andb];
    (split; [vm_compute; reflexivity|]);
    (split; [split; vm_compute; discriminate|]);
    (split; [intros Hq; vm_compute in Hq; first [discriminate Hq | lia]
            |intros [? ?]; first [lia | vm_compute; reflexivity]]).
Qed.

Variable utcOffset : string -> Z.
Variable hostZone timezone1 timezone2 : string.
Variable o : options.

Local Abbreviation hour2 := (hour2At utcOffset hostZone timezone1 timezone2 o).

(** When the second zone is a whole number of hours ahead of the first,
    its hour is the hour of the first zone moved by that number, on the
    clock of 24 hours. *)
Lemma hour2At_whole_hours k hour :
  utcOffset timezone2 - utcOffset timezone1 = 60 * k ->
  hour2 hour = (hour + k) mod 24.
Proof.
  intros Hk. unfold hour2At, time1At, hourIn, minuteOfDay, atHour. cbv zeta.
  set (d := (startOfDay utcOffset hostZone (date o) + utcOffset timezone1) / 1440).
  replace (d * 1440 + hour * 60 - utcOffset timezone1 + utcOffset timezone2)
    with ((hour + k) * 60 + d * 1440) by lia.
  rewrite Z.mod_add by lia.
  replace 1440 with (24 * 60) by reflexivity.
  rewrite Z.mul_mod_distr_r by lia.
  apply Z.div_mul. lia.
Qed.

Lemma sort_nil_iff l : sort l = [] <-> l = [].
Proof.
  split; intros H.
  - apply Permutation_nil. rewrite <- H. apply sort_perm.
  - subst. reflexivity.
Qed.

(** When the list of suggestions is empty. *)
Lemma suggestMeetingTimes_none_iff :
  suggestMeetingTimes utcOffset hostZone timezone1 timezone2 o = []
  <-> forall hour,
        businessHoursStart o <= hour < businessHoursEnd o ->
        ~ (businessHoursStart o <= hour2 hour < businessHoursEnd o).
Proof.
  unfold suggestMeetingTimes. split.
  - intros H hour Hh Hh2.
    assert (Hs : sort (candidates utcOffset hostZone timezone1 timezone2 o) = []).
    { destruct (sort _) as [|x l]; [reflexivity|discriminate H]. }
    apply (proj1 (sort_nil_iff _)) in Hs.
    assert (Hin : In (Suggestion
                        (minuteOfDay utcOffset timezone1
                           (time1At utcOffset hostZone timezone1 o hour))
                        (minuteOfDay utcOffset timezone2
                           (time1At utcOffset hostZone timezone1 o hour))
                        (time1At utcOffset hostZone timezone1 o hour)
                        (calculateTimeScore hour (hour2 hour)))
                     (candidates utcOffset hostZone timezone1 timezone2 o)).
    { apply candidates_In. exists hour. split; [exact Hh|].
      apply tryHour_In. split; [exact Hh2|reflexivity]. }
    rewrite Hs in Hin. destruct Hin.
  - intros H.
    assert (Hc : candidates utcOffset hostZone timezone1 timezone2 o = []).
    { destruct (candidates _ _ _ _ _) as [|x l] eqn:E; [reflexivity|].
      assert (Hx : In x (candidates utcOffset hostZone timezone1 timezone2 o))
        by (rewrite E; left; reflexivity).
      apply candidates_In in Hx. destruct Hx as (hour & Hh & Hx).
      apply tryHour_In in Hx. destruct Hx as [Hh2 _].
      destruct (H hour Hh Hh2). }
    rewrite Hc. reflexivity.
Qed.

(** X15.  No suggestion is returned exactly when no whole hour of the
    business window of the first zone is shown by the second zone as an
    hour of the business window too, the hour of the second zone being
    the hour of the first moved by the difference of the two offsets on
    the clock of 24 hours. *)
Theorem suggestMeetingTimes_empty_iff :
  suggestMeetingTimes utcOffset hostZone timezone1 timezone2 o = []
  <-> forall hour,
        businessHoursStart o <= hour < businessHoursEnd o ->
        ~ (businessHoursStart o
           <= convertedHour (utcOffset timezone1) (utcOffset timezone2) hour
           < businessHoursEnd o).
Proof.
  rewrite suggestMeetingTimes_none_iff.
  split; intros H hour Hh.
  - rewrite <- (hour2At_converted utcOffset hostZone timezone1 timezone2 o hour).
    apply H. exact Hh.
  - rewrite (hour2At_converted utcOffset hostZone timezone1 timezone2 o hour).
    apply H. exact Hh.
Qed.

(** X16.  Two zones twelve hours apart, whichever is ahead, share no
    business hour when the business window is within one day and at most
    twelve hours long: no suggestion is returned. *)
Theorem suggestMeetingTimes_opposite_zones :
  Z.abs (utcOffset timezone2 - utcOffset timezone1) = 720 ->
  0 <= businessHoursStart o ->
  businessHoursEnd o <= 24 ->
  businessHoursEnd o - businessHoursStart o <= 12 ->
  suggestMeetingTimes utcOffset hostZone timezone1 timezone2 o = [].
Proof.
  intros Hoff Hs He Hlen. apply suggestMeetingTimes_none_iff.
  intros hour Hh.
  assert (Hhour : hour2 hour = (hour + 12) mod 24).
  { destruct (Z.abs_spec (utcOffset timezone2 - utcOffset timezone1)) as [[_ Ha]|[_ Ha]].
    - apply hour2At_whole_hours. lia.
    - rewrite (hour2At_whole_hours (-12) hour) by lia.
      replace (hour + 12) with (hour + -12 + 1 * 24) by lia.
      symmetry. apply Z.mod_add. lia. }
  rewrite Hhour.
  destruct (Z_lt_le_dec hour 12).
  - rewrite Z.mod_small by lia. lia.
  - replace (hour + 12) with (hour - 12 + 1 * 24) by lia.
    rewrite Z.mod_add by lia. rewrite Z.mod_small by lia. lia.
Qed.

End Scores.

Section TimeDifference.

Import TimezoneHandler.

Variable utcOffsetNow : string -> Z.

(** X17.  The difference between two zones: the hours and the minutes are
    those of the absolute difference (minutes from 0 to 59), the total
    keeps the sign; the difference taken the other way round has the
    opposite total and the same hours and minutes; and a zone is at no
    distance from itself. *)
Theorem getTimeDifference_parts timezone1 timezone2 :
  let d := getTimeDifference utcOffsetNow timezone1 timezone2 in
  let d' := getTimeDifference utcOffsetNow timezone2 timezone1 in
  totalMinutes d = utcOffsetNow timezone2 - utcOffsetNow timezone1
  /\ 0 <= hours d /\ 0 <= minutes d < 60
  /\ 60 * hours d + minutes d = Z.abs (totalMinutes d)
  /\ totalMinutes d' = - totalMinutes d
  /\ hours d' = hours d /\ minutes d' = minutes d
  /\ getTimeDifference utcOffsetNow timezone1 timezone1
     = TimeDifference 0 0 0 "+0:00".
Proof.
  cbv zeta. unfold getTimeDifference. cbn [hours minutes totalMinutes].
  set (a := utcOffsetNow timezone1). set (b := utcOffsetNow timezone2).
  replace (Z.abs (a - b)) with (Z.abs (b - a)) by lia.
  pose proof (Z.mod_pos_bound (Z.abs (b - a)) 60 eq_refl).
  pose proof (Z.div_mod (Z.abs (b - a)) 60 ltac:(discriminate)).
  assert (0 <= Z.abs (b - a) / 60) by (apply Z.div_pos; lia).
  repeat split; try lia.
  rewrite Z.sub_diag. reflexivity.
Qed.

End TimeDifference.

Section RelativePhrases.

Import TimezoneHandler.

Variable addMonths : Z -> moment -> moment.

Lemma dayOfWeek_addDays7 m : dayOfWeek (addDays 7 m) = dayOfWeek m.
Proof.
  unfold dayOfWeek, addDays. cbn [mday].
  replace (mday m + 7 + 4) with (mday m + 4 + 1 * 7) by lia.
  apply Z.mod_add. lia.
Qed.

(** X18.  The day and week phrases, from any reference: "today" is the
    reference itself, "tomorrow" and "yesterday" the same time one day
    later and earlier; "this week" is the midnight that starts the Sunday
    on or before the reference day, at most six days back, and "next week"
    the same one week later; and "today" wins over a later "tomorrow" in
    the same text. *)
Theorem parseRelativeTime_day_and_week now :
  parseRelativeTime addMonths "today" now = Some now
  /\ parseRelativeTime addMonths "tomorrow" now = Some (addDays 1 now)
  /\ parseRelativeTime addMonths "yesterday" now = Some (addDays (-1) now)
  /\ parseRelativeTime addMonths "this week" now = Some (startOfWeek now)
  /\ parseRelativeTime addMonths "next week" now = Some (addDays 7 (startOfWeek now))
  /\ (dayOfWeek (startOfWeek now) = 0 /\ mtime (startOfWeek now) = 0
      /\ mday now - 6 <= mday (startOfWeek now) <= mday now)
  /\ parseRelativeTime addMonths "tomorrow, not today" now = Some now.
Proof.
  repeat split; try reflexivity.
  - replace (parseRelativeTime addMonths "next week" now)
      with (Some (startOfWeek (addDays 7 now))) by reflexivity.
    f_equal. unfold startOfWeek. rewrite dayOfWeek_addDays7.
    unfold addDays. cbn [mday mtime]. f_equal. lia.
  - unfold startOfWeek, dayOfWeek. cbn [mday].
    pose proof (Z.div_mod (mday now + 4) 7 ltac:(discriminate)).
    replace (mday now - (mday now + 4) mod 7 + 4)
      with ((mday now + 4) / 7 * 7) by lia.
    apply Z.mod_mul. discriminate.
  - unfold startOfWeek, dayOfWeek. cbn [mday].
    pose proof (Z.mod_pos_bound (mday now + 4) 7 eq_refl). lia.
  - unfold startOfWeek, dayOfWeek. cbn [mday].
    pose proof (Z.mod_pos_bound (mday now + 4) 7 eq_refl). lia.
Qed.

End RelativePhrases.

(* ================================================================== *)
(** * Durations written with digits *)
(* ================================================================== *)

Section DurationDigits.

Import AIProcessor Spec.

Lemma run_Star {A} r (s : st) (k : st -> option A) :
  run (Star r) s k = iterStar r k (length (rest s)) s.
Proof. reflexivity. Qed.

Lemma run_Seq {A} r1 r2 (s : st) (k : st -> option A) :
  run (Seq r1 r2) s k = run r1 s (fun s' => run r2 s' k).
Proof. reflexivity. Qed.

Lemma run_Group {A} n r (s : st) (k : st -> option A) :
  run (Group n r) s k = run r s (fun s' => k (capture n s s')).
Proof. reflexivity. Qed.

Lemma run_Chr_cons {A} p pv c t cs (k : st -> option A) :
  run (Chr p) (St pv (c :: t) cs) k = if p c then k (St (Some c) t cs) else None.
Proof. reflexivity. Qed.

Lemma run_Chr_nil {A} p pv cs (k : st -> option A) :
  run (Chr p) (St pv [] cs) k = None.
Proof. reflexivity. Qed.

Lemma iterStar_S {A} r (k : st -> option A) f s :
  iterStar r k (S f) s
  = match run r s (fun s' =>
            if (length (rest s') <? length (rest s))%nat
            then iterStar r k f s' else None) with
    | Some a => Some a
    | None => k s
    end.
Proof. reflexivity. Qed.

Lemma passed_cons prev d ds : passed (Some d) ds = passed prev (d :: ds).
Proof.
  unfold passed. destruct ds as [|d' ds]; [reflexivity|].
  rewrite last_cons_cons. destruct (last (d' :: ds)) eqn:E; [reflexivity|].
  apply last_None in E. discriminate.
Qed.


(** A star over a class fails when the rest of the pattern matches after
    no part of the run. *)
Lemma iterStar_none {A} p (k : st -> option A) t cs :
  stops p t ->
  forall ds fuel prev,
    Forall (fun c => p c = true) ds ->
    (forall ds1 ds2, ds = ds1 ++ ds2 -> k (St (passed prev ds1) (ds2 ++ t) cs) = None) ->
    iterStar (Chr p) k fuel (St prev (ds ++ t) cs) = None.
Proof.
  intros Ht. induction ds as [|d ds IH]; intros fuel prev Hds Hk.
  - pose proof (Hk [] [] eq_refl) as H0. cbn [app passed last from_option] in *.
    destruct fuel; [exact H0|].
    rewrite iterStar_S.
    destruct t as [|c t]; [rewrite run_Chr_nil; exact H0|].
    cbn in Ht. rewrite run_Chr_cons, Ht. exact H0.
  - pose proof (Hk [] (d :: ds) eq_refl) as H0. cbn [app passed last from_option] in H0.
    destruct fuel as [|fuel]; [exact H0|].
    apply Forall_cons in Hds. destruct Hds as [Hd Hds].
    rewrite iterStar_S. cbn [app]. rewrite run_Chr_cons, Hd. cbn [rest].
    assert (Hlt : (length (ds ++ t) <? length (d :: ds ++ t))%nat = true)
      by (apply Nat.ltb_lt; cbn; lia).
    rewrite Hlt. rewrite (IH fuel (Some d) Hds); [exact H0|].
    intros ds1 ds2 ->. rewrite passed_cons with (prev := prev).
    apply (Hk (d :: ds1) ds2). reflexivity.
Qed.

Lemma digit_facts c :
  isDigit c = true ->
  isSpace c = false /\ chr_ci "m" c = false /\ chr_ci "h" c = false
  /\ chr_eq "." c = false.
Proof.
  destruct c as [[] [] [] [] [] [] [] []]; intros H;
    try discriminate H; repeat split; reflexivity.
Qed.

Lemma spaces_units_notOnDigit : 
  notOnDigit (Seq (Star (Chr isSpace)) minuteUnits)
  /\ notOnDigit (Seq (Star (Chr isSpace)) hourUnits)
  /\ notOnDigit (Seq (lit ".5") (Seq (Star (Chr isSpace)) hourUnits)).
Proof.
  repeat split; intros A p c t cs k Hc;
    destruct (digit_facts c Hc) as (Hs & Hm & Hh & Hdot).
  - rewrite run_Seq, run_Star. cbn [length rest]. rewrite iterStar_S.
    rewrite run_Chr_cons, Hs.
    unfold minuteUnits, unitRe. cbn [map alts lit_ci run rest]. rewrite Hm. reflexivity.
  - rewrite run_Seq, run_Star. cbn [length rest]. rewrite iterStar_S.
    rewrite run_Chr_cons, Hs.
    unfold hourUnits, unitRe. cbn [map alts lit_ci run rest]. rewrite Hh. reflexivity.
  - cbn [lit]. rewrite !run_Seq, run_Chr_cons, Hdot. reflexivity.
Qed.

(** Inside a run of digits followed by a text on which [tail] fails, a
    duration pattern fails. *)
Lemma digitsThen_fails {A} tail t (k : st -> option A) :
  notOnDigit tail ->
  stops isDigit t ->
  (forall p cs, run tail (St p t cs) k = None) ->
  forall ds prev,
    Forall (fun c => isDigit c = true) ds ->
    run (digitsThen tail) (St prev (ds ++ t) []) k = None.
Proof.
  intros Htail Ht Hend ds prev Hds. unfold digitsThen, Plus.
  rewrite run_Seq, run_Group, run_Seq.
  destruct ds as [|d ds]; cbn [app].
  - destruct t as [|c t]; [apply run_Chr_nil|].
    cbn in Ht. rewrite run_Chr_cons, Ht. reflexivity.
  - apply Forall_cons in Hds. destruct Hds as [Hd Hds].
    rewrite run_Chr_cons, Hd, run_Star. cbn [rest].
    apply (iterStar_none isDigit _ t [] Ht ds _ (Some d) Hds).
    intros ds1 ds2 ->. unfold capture. cbn [rest Regex.prev caps].
    destruct ds2 as [|c ds2]; cbn [app].
    + apply Hend.
    + apply Htail. apply Forall_app in Hds. destruct Hds as [_ Hds].
      apply Forall_cons in Hds. tauto.
Qed.

(** The search walks through such a run. *)
Lemma search_through_digits tail t :
  notOnDigit tail ->
  stops isDigit t ->
  (forall p cs, run tail (St p t cs) (fun s => Some (caps s)) = None) ->
  forall ds prev,
    Forall (fun c => isDigit c = true) ds ->
    search (digitsThen tail) prev (ds ++ t)
    = search (digitsThen tail) (passed prev ds) t.
Proof.
  intros Htail Ht Hend. induction ds as [|d ds IH]; intros prev Hds.
  - reflexivity.
  - cbn [app search].
    pose proof (digitsThen_fails tail t _ Htail Ht Hend (d :: ds) prev Hds) as Hf.
    cbn [app] in Hf. rewrite Hf.
    apply Forall_cons in Hds. destruct Hds as [_ Hds].
    rewrite (IH (Some d) Hds). rewrite passed_cons with (prev := prev). reflexivity.
Qed.




Lemma list_ascii_text ds suffix :
  list_ascii_of_string (string_of_list_ascii ds +:+ suffix)
  = ds ++ list_ascii_of_string suffix.
Proof.
  induction ds as [|d ds IH]; simpl; [reflexivity|]. f_equal. exact IH.
Qed.



Variable chronoParse : string -> list chronoStart.
Variable systemTimeZone : string.
Variable context : jsval.

Local Abbreviation duration_of command :=
  (getProp (localParse chronoParse systemTimeZone command context) "duration").


(** X20.  Whatever the whole part, a mention of "N.5 hours" gives the
    duration 300: the pattern of whole hours is tried before the one of
    half hours and matches "5 hours". *)
Theorem localParse_duration_half_hours ds :
  Forall (fun c => isDigit c = true) ds ->
  duration_of (string_of_list_ascii ds +:+ ".5 hours") = Ret (VNum 300).
Proof.
  intros Hds. rewrite localParse_duration.
  destruct spaces_units_notOnDigit as (Hnm & Hnh & _).
  unfold durationPatterns. cbn [extractDuration].
  change (Seq (Group 1 (Plus (Chr isDigit)))
              (Seq (Star (Chr isSpace)) (unitRe ["minute"; "min"; "minutes"])))
    with (digitsThen (Seq (Star (Chr isSpace)) minuteUnits)).
  change (Seq (Group 1 (Plus (Chr isDigit)))
              (Seq (Star (Chr isSpace)) (unitRe ["hour"; "hr"; "hours"])))
    with (digitsThen (Seq (Star (Chr isSpace)) hourUnits)).
  assert (Hnone : exec (digitsThen (Seq (Star (Chr isSpace)) minuteUnits))
                       (string_of_list_ascii ds +:+ ".5 hours") = None).
  { unfold exec. rewrite list_ascii_text.
    rewrite (search_through_digits _ _ Hnm); [reflexivity|reflexivity| |exact Hds].
    intros; reflexivity. }
  assert (Hsome : exec (digitsThen (Seq (Star (Chr isSpace)) hourUnits))
                       (string_of_list_ascii ds +:+ ".5 hours")
                  = Some [(1%nat, ["5"%char])]).
  { unfold exec. rewrite list_ascii_text.
    rewrite (search_through_digits _ _ Hnh); [reflexivity|reflexivity| |exact Hds].
    intros; reflexivity. }
  rewrite Hnone, Hsome. vm_compute. reflexivity.
Qed.

End DurationDigits.

(* ================================================================== *)
(** * "in N days" *)
(* ================================================================== *)

Section RelativeDigits.

Import AIProcessor TimezoneHandler Spec.



















Variable addMonths : Z -> moment -> moment.


End RelativeDigits.

(* ================================================================== *)
(** * Instances *)
(* ================================================================== *)

Section Instances.

Import AIProcessor BackgroundService TimezoneHandler CalendarService Spec Samples.

Lemma findAvailableSlots_sound_example :
  In (Slot (clock 9 0) (clock 9 30)) (findAvailableSlots dayStart dayEnd [] 30)
  /\ CalendarService.getHours (clock 9 30) <= CalendarService.businessHoursEnd.
Proof.
  assert (Hin : In (Slot (clock 9 0) (clock 9 30))
                   (findAvailableSlots dayStart dayEnd [] 30))
    by (vm_compute; left; reflexivity).
  split; [exact Hin|].
  destruct (findAvailableSlots_sound dayStart dayEnd [] 30 _ Hin) as (_ & _ & _ & Hh & _).
  exact Hh.
Defined.

Lemma checkAvailability_day_example :
  0 <= 30 < 900
  /\ In (Slot (clock 9 0) (clock 9 30)) (checkAvailability (fun _ _ => Ret []) 0 30).
Proof.
  assert (Hd : 0 <= 30 < 900) by lia.
  split; [exact Hd|].
  apply (proj2 (checkAvailability_day (fun _ _ => Ret []) 0 30 []
                  (Slot (clock 9 0) (clock 9 30)) Hd eq_refl)).
  exists 0. repeat split; vm_compute; congruence.
Defined.

Lemma parseTimezoneFromText_ignores_case_example :
  parseTimezoneFromText "I'm on pst tonight" = parseTimezoneFromText "I'M ON PST TONIGHT".
Proof. apply parseTimezoneFromText_ignores_case. reflexivity. Defined.

Lemma timezoneMap_agrees_with_resolver_example :
  assoc "IST" timezoneMap = Some "Asia/Kolkata"
  /\ parseTimezoneFromText "IST" = Some "Asia/Kolkata"
  /\ assoc "CEST" timezoneMap = Some "Europe/Paris"
  /\ parseTimezoneFromText "CEST" = None.
Proof.
  split; [reflexivity|]. split; [|split; [reflexivity|]].
  - apply (proj1 (timezoneMap_agrees_with_resolver "IST" "Asia/Kolkata" eq_refl));
      discriminate.
  - apply (proj1 (proj2 (timezoneMap_agrees_with_resolver "CEST" "Europe/Paris" eq_refl))).
    left. reflexivity.
Defined.

Lemma localParse_meet_is_google_meet_example :
  getProp (localParse noChrono "Europe/Dublin" "Team meeting on Zoom" VUndefined)
          "platform" = Ret (VStr "google-meet").
Proof.
  apply (localParse_meet_is_google_meet noChrono "Europe/Dublin"
           "Team meeting on Zoom" VUndefined "team " "ing on zoom").
  reflexivity.
Defined.

Lemma aiEnhancedParse_keeps_identity_example :
  truthy (getPropOpt
            (aiEnhancedParse
               (replies (Response true 200 (Ret (completion dateOnlyText))))
               (parses dateOnlyText (VObj dateOnly))
               "schedule a call" VUndefined (VObj knownEmail)) "email") = true.
Proof.
  apply aiEnhancedParse_keeps_identity; [right; reflexivity|reflexivity].
Defined.

Lemma generateMeetingDetails_defaults_example :
  exists details,
    generateMeetingDetails (VObj ∅) (fun _ _ _ => Ret (VObj ∅)) (fun _ => VStr "Hi")
      (VObj emptyParse) VUndefined = Ret details
    /\ getProp details "participantName" = Ret (VStr "Unknown")
    /\ getProp details "duration" = Ret (VNum 30)
    /\ getProp details "platform" = Ret (VStr "google-meet")
    /\ getProp details "email" = Ret (VStr "").
Proof.
  assert (H : exists details,
             generateMeetingDetails (VObj ∅) (fun _ _ _ => Ret (VObj ∅))
               (fun _ => VStr "Hi") (VObj emptyParse) VUndefined = Ret details)
    by (eexists; reflexivity).
  destruct H as [details H].
  destruct (generateMeetingDetails_defaults _ _ _ _ _ details H)
    as (name & email & duration & platform & Hname & Hemail & Hduration & Hplatform
        & _ & _ & _ & -> & -> & -> & ->).
  exists details. split; [exact H|].
  split; [exact Hname|]. split; [exact Hduration|].
  split; [exact Hplatform|exact Hemail].
Defined.

Lemma suggestMeetingTimes_empty_iff_example :
  suggestMeetingTimes offsets "UTC" "Asia/Kolkata" "America/Los_Angeles" defaults = [].
Proof.
  apply (proj2 (suggestMeetingTimes_empty_iff offsets "UTC" "Asia/Kolkata"
                  "America/Los_Angeles" defaults)).
  intros hour Hh. change (9 <= hour < 17) in Hh.
  change (~ (9 <= convertedHour 330 (-480) hour < 17)).
  assert (Hcases : hour = 9 \/ hour = 10 \/ hour = 11 \/ hour = 12 \/ hour = 13
                   \/ hour = 14 \/ hour = 15 \/ hour = 16) by lia.
  decompose [or] Hcases; subst; vm_compute; intros [H1 H2];
    first [apply H1; reflexivity | discriminate H2].
Defined.

Lemma suggestMeetingTimes_opposite_zones_example :
  suggestMeetingTimes offsets "UTC" "Pacific/Auckland" "UTC" defaults = []
  /\ suggestMeetingTimes offsets "UTC" "UTC" "Pacific/Auckland" defaults = [].
Proof.
  split; apply suggestMeetingTimes_opposite_zones; cbn; first [reflexivity | lia].
Defined.


Lemma localParse_duration_half_hours_example :
  getProp (localParse noChrono "Europe/Dublin" "2.5 hours" VUndefined) "duration"
  = Ret (VNum 300).
Proof.
  apply (localParse_duration_half_hours noChrono "Europe/Dublin" VUndefined ["2"%char]).
  repeat constructor.
Defined.


End Instances.
